(** * birdwatcher: the composition root (birdwatcher.go)

    A shallow embedding of [isModuleEnabled], [makeRouter],
    [PrintServiceInfo], [MyLogger.Write] and [main], with models of the
    collaborators they call (httprouter, the log package, the bird and
    endpoints packages), and the properties of the startup sequence and of
    the route table proved about them. *)

From Stdlib Require Import String Ascii List ZArith Lia Bool.
From stdpp Require Import base option list strings gmap.
Import ListNotations.
Open Scope string_scope.
Open Scope list_scope.

(* ===================================================================== *)
(** * The router library (github.com/julienschmidt/httprouter)           *)
(* ===================================================================== *)

(** The router is a library the program imports; only the part of its
    interface that [makeRouter] and the served requests use is modelled:
    [New], [GET]/[Handle], and the lookup that [ServeHTTP] performs.
    Patterns are taken segment by segment: a segment that starts with a
    colon is a named parameter and matches one path segment, which may be
    empty when more of the pattern follows and not when the parameter ends
    the pattern; any other segment matches itself.  Registering a pattern
    that clashes with a registered one panics, as the library does.
    Catch-all segments and the trailing-slash and fixed-path redirections
    are not modelled: no pattern of the program uses the former, and the
    latter only concern request paths that differ from every registered
    pattern. *)
Module httprouter.

(** One segment of a registered pattern. *)
Inductive Seg : Type :=
| Static (s : string)
| Param (name : string).

(** The values of the named parameters of a matched request. *)
Definition Params : Type := list (string * string).

(** [split "/a/b" = [""; "a"; "b"]]: the pieces between slashes. *)
Fixpoint split (s : string) : list string :=
  match s with
  | EmptyString => [EmptyString]
  | String c s' =>
      if Ascii.eqb c "/"%char then EmptyString :: split s'
      else match split s' with
           | seg :: rest => String c seg :: rest
           | [] => [String c EmptyString]
           end
  end.

Definition seg_of_string (s : string) : Seg :=
  match s with
  | String ":"%char name => Param name
  | _ => Static s
  end.

(** The segments of a pattern, after its leading slash. *)
Definition parse (pattern : string) : list Seg :=
  map seg_of_string (tail (split pattern)).

Fixpoint match_segs (pat : list Seg) (path : list string) : option Params :=
  match pat, path with
  | [], [] => Some []
  | Static s :: pat', x :: path' =>
      if String.eqb s x then match_segs pat' path' else None
  | Param n :: pat', x :: path' =>
      if String.eqb x "" && match pat' with [] => true | _ :: _ => false end
      then None
      else match match_segs pat' path' with
           | Some ps => Some ((n, x) :: ps)
           | None => None
           end
  | _, _ => None
  end.

(** Does the request path [path] match [pattern], and with which
    parameter values. *)
Definition match_path (pattern path : string) : option Params :=
  match split path with
  | EmptyString :: segs => match_segs (parse pattern) segs
  | _ => None
  end.

(** Two patterns clash when they are the same pattern, or when, after a
    common prefix, one has a parameter where the other has a static
    segment or a parameter of another name. *)
Fixpoint conflict (p q : list Seg) : bool :=
  match p, q with
  | [], [] => true
  | [], _ :: _ | _ :: _, [] => false
  | Static a :: p', Static b :: q' =>
      if String.eqb a b then conflict p' q' else false
  | Param a :: p', Param b :: q' =>
      if String.eqb a b then conflict p' q' else true
  | Static _ :: _, Param _ :: _ | Param _ :: _, Static _ :: _ => true
  end.

(** Can two patterns match one and the same request path. *)
Fixpoint overlap (p q : list Seg) : bool :=
  match p, q with
  | [], [] => true
  | [], _ :: _ | _ :: _, [] => false
  | Static a :: p', Static b :: q' =>
      if String.eqb a b then overlap p' q' else false
  | _ :: p', _ :: q' => overlap p' q'
  end.

Section Router.
(** The type of request handlers ([httprouter.Handle]). *)
Context {H : Type}.

(** A registered route: the pattern as given, and its handler. *)
Definition Route : Type := (string * H)%type.

(** [Router.trees]: for each method, the routes registered for it, in
    the order of registration. *)
Record Router : Type := mkRouter { trees : gmap string (list Route) }.

(** [httprouter.New()] *)
Definition New : Router := mkRouter ∅.

Definition clashes (path : string) (root : list Route) : bool :=
  existsb (fun rt => conflict (parse path) (parse (fst rt))) root.

(** [r.Handle(method, path, handle)]; [None] is a panic. *)
Definition Handle (method path : string) (handle : H) (r : Router)
  : option Router :=
  if negb (String.prefix "/" path) then None
  else
    let root := default [] (trees r !! method) in
    if clashes path root then None
    else Some (mkRouter (<[method := root ++ [(path, handle)]]> (trees r))).

Fixpoint find_route (root : list Route) (path : string)
  : option (H * Params) :=
  match root with
  | [] => None
  | (pattern, handle) :: root' =>
      match match_path pattern path with
      | Some ps => Some (handle, ps)
      | None => find_route root' path
      end
  end.

(** [r.Lookup(method, path)] *)
Definition Lookup (r : Router) (method path : string)
  : option (H * Params) :=
  match trees r !! method with
  | Some root => find_route root path
  | None => None
  end.

(** What a request is answered with. *)
Inductive Response : Type :=
| Dispatched (handle : H) (ps : Params)
| NotFound.

(** [r.ServeHTTP(w, req)] for a request of the given method and path. *)
Definition ServeHTTP (r : Router) (method path : string) : Response :=
  match Lookup r method path with
  | Some (handle, ps) => Dispatched handle ps
  | None => NotFound
  end.
End Router.

Arguments Route : clear implicits.
Arguments Router : clear implicits.
Arguments Response : clear implicits.

(** Building a router: the router under construction is threaded through
    the registrations, and a panic stops the construction. *)
Definition Build (H A : Type) : Type := Router H -> option (A * Router H).

Definition ret {H A} (a : A) : Build H A := fun r => Some (a, r).

Definition bind {H A B} (k : A -> Build H B) (m : Build H A) : Build H B :=
  fun r => match m r with
           | Some (a, r') => k a r'
           | None => None
           end.

#[global] Instance Build_ret {H} : MRet (Build H) := @ret H.
#[global] Instance Build_bind {H} : MBind (Build H) := @bind H.

(** [r.GET(path, handle)] is a shortcut for [r.Handle("GET", path, handle)]. *)
Definition GET {H} (path : string) (handle : H) : Build H unit :=
  fun r => match Handle "GET" path handle r with
           | Some r' => Some (tt, r')
           | None => None
           end.

(** [if b { ... }] *)
Definition when {H} (b : bool) (body : Build H unit) : Build H unit :=
  if b then body else ret tt.

End httprouter.

(* ===================================================================== *)
(** * The endpoints package                                              *)
(* ===================================================================== *)

Module endpoints.

(** Modelled from the spec: the declaration of [endpoints.ServerConfig]
    is not among the sources; its fields are those of section 6 of the
    specification, which are also the ones the program reads. *)
Record ServerConfig : Type := mkServerConfig {
  AllowFrom : list string;
  ModulesEnabled : list string;
  EnableTLS : bool;
  Crt : string;
  Key : string
}.

(** The business functions that [endpoints.Endpoint] wraps, by name. *)
Inductive endpoint : Type :=
| Status | Protocols | Bgp | Symbols | SymbolTables | SymbolProtocols
| ProtoRoutes | TableRoutes | ProtoCount | TableCount
| RoutesFiltered | RoutesNoExport | RoutesPrefixed
| RouteNet | RouteNetTable | RoutesPeer | RoutesDump.

(** A request handler, as produced by the two handler factories. *)
Inductive Handle : Type :=
| Version (version : string)
| Endpoint (wrapped : endpoint).

#[global] Instance endpoint_eq_dec : EqDecision endpoint.
Proof. solve_decision. Defined.

#[global] Instance Handle_eq_dec : EqDecision Handle.
Proof. solve_decision. Defined.

End endpoints.

(* ===================================================================== *)
(** * birdwatcher.go: the route builder                                  *)
(* ===================================================================== *)

Definition VERSION : string := "1.11.2".

Fixpoint isModuleEnabled (module : string) (modulesEnabled : list string)
  : bool :=
  match modulesEnabled with
  | [] => false
  | enabled :: rest =>
      if String.eqb enabled module then true
      else isModuleEnabled module rest
  end.

Definition makeRouter (config : endpoints.ServerConfig)
  : option (httprouter.Router endpoints.Handle) :=
  let whitelist := endpoints.ModulesEnabled config in
  let GET := @httprouter.GET endpoints.Handle in
  let when := @httprouter.when endpoints.Handle in
  let Version := endpoints.Version in
  let Endpoint := endpoints.Endpoint in
  let registrations :=
    when (isModuleEnabled "status" whitelist) (
      GET "/version" (Version VERSION) ;;
      GET "/status" (Endpoint endpoints.Status)) ;;
    when (isModuleEnabled "protocols" whitelist) (
      GET "/protocols" (Endpoint endpoints.Protocols)) ;;
    when (isModuleEnabled "protocols_bgp" whitelist) (
      GET "/protocols/bgp" (Endpoint endpoints.Bgp)) ;;
    when (isModuleEnabled "symbols" whitelist) (
      GET "/symbols" (Endpoint endpoints.Symbols)) ;;
    when (isModuleEnabled "symbols_tables" whitelist) (
      GET "/symbols/tables" (Endpoint endpoints.SymbolTables)) ;;
    when (isModuleEnabled "symbols_protocols" whitelist) (
      GET "/symbols/protocols" (Endpoint endpoints.SymbolProtocols)) ;;
    when (isModuleEnabled "routes_protocol" whitelist) (
      GET "/routes/protocol/:protocol" (Endpoint endpoints.ProtoRoutes)) ;;
    when (isModuleEnabled "routes_table" whitelist) (
      GET "/routes/table/:table" (Endpoint endpoints.TableRoutes)) ;;
    when (isModuleEnabled "routes_count_protocol" whitelist) (
      GET "/routes/count/protocol/:protocol" (Endpoint endpoints.ProtoCount)) ;;
    when (isModuleEnabled "routes_count_table" whitelist) (
      GET "/routes/count/table/:table" (Endpoint endpoints.TableCount)) ;;
    when (isModuleEnabled "routes_filtered" whitelist) (
      GET "/routes/filtered/:protocol" (Endpoint endpoints.RoutesFiltered)) ;;
    when (isModuleEnabled "routes_noexport" whitelist) (
      GET "/routes/noexport/:protocol" (Endpoint endpoints.RoutesNoExport)) ;;
    when (isModuleEnabled "routes_prefixed" whitelist) (
      GET "/routes/prefix" (Endpoint endpoints.RoutesPrefixed)) ;;
    when (isModuleEnabled "route_net" whitelist) (
      GET "/route/net/:net" (Endpoint endpoints.RouteNet) ;;
      GET "/route/net/:net/table/:table" (Endpoint endpoints.RouteNetTable)) ;;
    when (isModuleEnabled "routes_peer" whitelist) (
      GET "/routes/peer" (Endpoint endpoints.RoutesPeer)) ;;
    when (isModuleEnabled "routes_dump" whitelist) (
      GET "/routes/dump" (Endpoint endpoints.RoutesDump))
  in
  match registrations httprouter.New with
  | Some (_, r) => Some r
  | None => None
  end.

(** The route table of section 4.1 of the specification, module by module,
    each route with the handler that [makeRouter] gives it.  It is the
    reference that [makeRouter] is compared with. *)
Definition routes_table : list (string * list (httprouter.Route endpoints.Handle)) :=
  [ ("status", [ ("/version", endpoints.Version VERSION);
                 ("/status", endpoints.Endpoint endpoints.Status) ]);
    ("protocols", [ ("/protocols", endpoints.Endpoint endpoints.Protocols) ]);
    ("protocols_bgp", [ ("/protocols/bgp", endpoints.Endpoint endpoints.Bgp) ]);
    ("symbols", [ ("/symbols", endpoints.Endpoint endpoints.Symbols) ]);
    ("symbols_tables",
      [ ("/symbols/tables", endpoints.Endpoint endpoints.SymbolTables) ]);
    ("symbols_protocols",
      [ ("/symbols/protocols", endpoints.Endpoint endpoints.SymbolProtocols) ]);
    ("routes_protocol",
      [ ("/routes/protocol/:protocol", endpoints.Endpoint endpoints.ProtoRoutes) ]);
    ("routes_table",
      [ ("/routes/table/:table", endpoints.Endpoint endpoints.TableRoutes) ]);
    ("routes_count_protocol",
      [ ("/routes/count/protocol/:protocol",
         endpoints.Endpoint endpoints.ProtoCount) ]);
    ("routes_count_table",
      [ ("/routes/count/table/:table", endpoints.Endpoint endpoints.TableCount) ]);
    ("routes_filtered",
      [ ("/routes/filtered/:protocol", endpoints.Endpoint endpoints.RoutesFiltered) ]);
    ("routes_noexport",
      [ ("/routes/noexport/:protocol", endpoints.Endpoint endpoints.RoutesNoExport) ]);
    ("routes_prefixed",
      [ ("/routes/prefix", endpoints.Endpoint endpoints.RoutesPrefixed) ]);
    ("route_net",
      [ ("/route/net/:net", endpoints.Endpoint endpoints.RouteNet);
        ("/route/net/:net/table/:table",
         endpoints.Endpoint endpoints.RouteNetTable) ]);
    ("routes_peer", [ ("/routes/peer", endpoints.Endpoint endpoints.RoutesPeer) ]);
    ("routes_dump", [ ("/routes/dump", endpoints.Endpoint endpoints.RoutesDump) ]) ].

(** The fixed set of module names that [makeRouter] knows. *)
Definition known_modules : list string := map fst routes_table.

(** The rows of the table as (module, method, pattern, handler). *)
Definition table_rows
  : list (string * string * string * endpoints.Handle) :=
  flat_map (fun g => map (fun rt => (fst g, "GET", fst rt, snd rt)) (snd g))
           routes_table.

(** The routes of the table whose module the whitelist enables, in the
    order of the table. *)
Definition enabled_routes (whitelist : list string)
  : list (httprouter.Route endpoints.Handle) :=
  flat_map (fun g => if isModuleEnabled (fst g) whitelist then snd g else [])
           routes_table.

(** The router that holds the given routes under GET. *)
Definition router_of (routes : list (httprouter.Route endpoints.Handle))
  : httprouter.Router endpoints.Handle :=
  match routes with
  | [] => httprouter.New
  | _ :: _ => httprouter.mkRouter (<["GET" := routes]> ∅)
  end.

(** Every route of the table, in the order of the table. *)
Definition all_routes : list (httprouter.Route endpoints.Handle) :=
  flat_map snd routes_table.

(** The registrations [r.GET(path, handle)] of a list of routes, in order. *)
Fixpoint register {H} (rows : list (httprouter.Route H))
  : httprouter.Build H unit :=
  match rows with
  | [] => mret tt
  | (path, handle) :: rows' => httprouter.GET path handle ;; register rows'
  end.

(** The checks that [Handle] makes when [rows] are registered one after
    the other on top of [root]. *)
Fixpoint registrable {H} (root rows : list (httprouter.Route H)) : bool :=
  match rows with
  | [] => true
  | (path, handle) :: rows' =>
      String.prefix "/" path
      && negb (httprouter.clashes path root)
      && registrable (root ++ [(path, handle)]) rows'
  end.

(** The routes that a router holds under GET, in the order of their
    registration. *)
Definition gets {H} (r : httprouter.Router H) : list (httprouter.Route H) :=
  default [] (httprouter.trees r !! "GET").

(** A whitelist with further copies of [m] put in, anywhere. *)
Inductive with_copies (m : string) (S : list string) : list string -> Prop :=
| copies_none : with_copies m S S
| copies_more (l1 l2 : list string) :
    with_copies m S (l1 ++ l2) -> with_copies m S (l1 ++ m :: l2).

(* ===================================================================== *)
(** * The log package, and the access-log adapter                        *)
(* ===================================================================== *)

(** A Go [error] value, by its message. *)
Definition error : Type := string.

Module log.

(** Where a logger writes. *)
Inductive Writer : Type := Stdout | Stderr.

(** [log.Logger], as [log.New(out, prefix, flag)] builds it. *)
Record Logger : Type := New { out : Writer; prefix : string; flag : Z }.

End log.

(** MyLogger is our own log.Logger wrapper so we can customize it *)
Record MyLogger : Type := mkMyLogger { logger : log.Logger }.

(** [string(p)]: the string with the bytes of [p]. *)
Definition string_of_bytes (p : list Byte.byte) : string :=
  string_of_list_byte p.

Section AccessLog.
(** The world that the underlying logger acts on, and what a call of
    [Logger.Print] does to it.  [Print] returns nothing: whether the line
    reached its destination is not visible to the caller. *)
Context {W : Type}.
Variable Logger_Print : log.Logger -> string -> W -> W.

(** Write implements the Write method of io.Writer *)
Definition Write (m : MyLogger) (p : list Byte.byte)
  : W -> (Z * option error) * W :=
  fun w =>
    let w' := Logger_Print (logger m) (string_of_bytes p) w in
    ((Z.of_nat (length p), None), w').
End AccessLog.

(** A logger that records the calls it receives, in order. *)
Definition recording_Print (l : log.Logger) (s : string)
  (calls : list (log.Logger * string)) : list (log.Logger * string) :=
  calls ++ [(l, s)].

(* ===================================================================== *)
(** * The bird package, the configuration, and the process               *)
(* ===================================================================== *)

Module bird.

(** Modelled from the spec: the declaration of [bird.BirdConfig] is not
    among the sources; section 6 of the specification gives a backend
    configuration a command, a listen address and a cache time-to-live,
    here under the names by which [PrintServiceInfo] and [main] read
    them. *)
Record BirdConfig : Type := mkBirdConfig {
  Listen : string;
  BirdCmd : string;
  CacheTtl : Z
}.

(** The parser settings; the declaration is not among the sources, and
    the one field is the one that [PrintServiceInfo] prints. *)
Record ParserConfig : Type := mkParserConfig { PerPeerTables : bool }.

End bird.

(** [handlers.LoggingHandler(out, h)] *)
Inductive Handler : Type :=
| LoggingHandler (out : MyLogger) (h : httprouter.Router endpoints.Handle).

(** An argument of a call of the log package. *)
Inductive Arg : Type :=
| AStr (s : string)
| AInt (n : Z)
| ABool (b : bool)
| AErr (e : error).

(** How a computation ends: with a value, with [os.Exit(code)], with a
    panic, or never (the listener serves until the process is killed). *)
Inductive Result (A : Type) : Type :=
| Ret (a : A)
| Exit (code : Z)
| Panic
| Serving.
Arguments Ret {A} a.
Arguments Exit {A} code.
Arguments Panic {A}.
Arguments Serving {A}.

Section Startup.
(** The status and rate-limit sections of the configuration are passed on
    and never looked into. *)
Context {StatusConfig RateLimitConfig : Type}.

(** The configuration file, loaded ([Config] is declared in a file that is
    not among the sources; these are the sections that [main] reads). *)
Record Config : Type := mkConfig {
  Server : endpoints.ServerConfig;
  Ratelimit : RateLimitConfig;
  Status : StatusConfig;
  Bird : bird.BirdConfig;
  Bird6 : bird.BirdConfig;
  Parser : bird.ParserConfig
}.

(** The command-line flags after [flag.Parse()]. *)
Record Flags : Type := mkFlags {
  bird6 : bool;
  workerPoolSize : Z;
  configfile : string
}.

(** The flags when the command line gives none. *)
Definition default_flags : Flags :=
  mkFlags false 8 "etc/birdwatcher/birdwatcher.conf".

(** What the program gets from outside: the parsed command line (or the
    status with which [flag.Parse] exits when it does not accept it), the
    outcome of [LoadConfigs], which is declared in a file that is not
    among the sources, the formatted time of [time.Now()], and the error
    with which the listener returns ([None] when it serves forever). *)
Record Env : Type := mkEnv {
  cmdline : Flags + Z;
  LoadConfigs : list string -> Config + error;
  now : string;
  serve_error : option error
}.

(** The value of a package variable of a collaborator. *)
Inductive Value : Type :=
| VInt (n : Z)
| VString (s : string)
| VBirdConfig (c : bird.BirdConfig)
| VStatusConfig (c : StatusConfig)
| VRateLimitConfig (c : RateLimitConfig)
| VParserConfig (c : bird.ParserConfig)
| VServerConfig (c : endpoints.ServerConfig).

(** What the process does that can be seen from outside it, in order. *)
Inductive Event : Type :=
| EvFlagParse
| EvLoadConfigs (files : list string)
| EvStore (var : string) (v : Value)
| EvInstallRateLimitReset
| EvPrintln (args : list Arg)
| EvFatal (args : list Arg)
| EvFatalln (args : list Arg)
| EvSetPrefix (prefix : string)
| EvListenAndServe (addr : string) (handler : Handler)
| EvListenAndServeTLS (addr certFile keyFile : string) (handler : Handler).

(** The package variables, by qualified name, and the events so far. *)
Record World : Type := mkWorld {
  globals : gmap string Value;
  trace : list Event
}.

Definition Proc (A : Type) : Type := World -> Result A * World.

Definition proc_ret {A} (a : A) : Proc A := fun w => (Ret a, w).

Definition proc_bind {A B} (k : A -> Proc B) (m : Proc A) : Proc B :=
  fun w => match m w with
           | (Ret a, w') => k a w'
           | (Exit code, w') => (Exit code, w')
           | (Panic, w') => (Panic, w')
           | (Serving, w') => (Serving, w')
           end.

#[global] Instance Proc_ret : MRet Proc := @proc_ret.
#[global] Instance Proc_bind : MBind Proc := @proc_bind.

Definition emit (e : Event) : Proc unit :=
  fun w => (Ret tt, mkWorld (globals w) (trace w ++ [e])).

(** [os.Exit(code)] *)
Definition os_Exit {A} (code : Z) : Proc A := fun w => (Exit code, w).

(** An assignment to a package variable. *)
Definition store (var : string) (v : Value) : Proc unit :=
  fun w => (Ret tt, mkWorld (<[var := v]> (globals w))
                            (trace w ++ [EvStore var v])).

(** [flag.Parse()], with the flags declared on lines 126 to 128. *)
Definition flag_Parse (env : Env) : Proc Flags :=
  emit EvFlagParse ;;
  match cmdline env with
  | inl flags => mret flags
  | inr code => os_Exit code
  end.

Definition call_LoadConfigs (env : Env) (files : list string)
  : Proc (Config + error) :=
  emit (EvLoadConfigs files) ;; mret (LoadConfigs env files).

Definition log_Println (args : list Arg) : Proc unit := emit (EvPrintln args).

(** [log.Fatal] is [Print] followed by [os.Exit(1)]. *)
Definition log_Fatal {A} (args : list Arg) : Proc A :=
  emit (EvFatal args) ;; os_Exit 1.

Definition log_Fatalln {A} (args : list Arg) : Proc A :=
  emit (EvFatalln args) ;; os_Exit 1.

Definition log_SetPrefix (prefix : string) : Proc unit :=
  emit (EvSetPrefix prefix).

Definition bird_InstallRateLimitReset : Proc unit :=
  emit EvInstallRateLimitReset.

(** The listener returns only with an error. *)
Definition blocking (env : Env) : Proc error :=
  fun w => match serve_error env with
           | Some err => (Ret err, w)
           | None => (Serving, w)
           end.

Definition http_ListenAndServe (env : Env) (addr : string) (handler : Handler)
  : Proc error :=
  emit (EvListenAndServe addr handler) ;; blocking env.

Definition http_ListenAndServeTLS (env : Env) (addr certFile keyFile : string)
  (handler : Handler) : Proc error :=
  emit (EvListenAndServeTLS addr certFile keyFile handler) ;; blocking env.

(** A call that may panic. *)
Definition or_panic {A} (o : option A) : Proc A :=
  fun w => match o with
           | Some a => (Ret a, w)
           | None => (Panic, w)
           end.

(** [for _, x := range l { body x }] *)
Fixpoint for_range {A} (l : list A) (body : A -> Proc unit) : Proc unit :=
  match l with
  | [] => mret tt
  | x :: l' => body x ;; for_range l' body
  end.

(** Print service information like, listen address,
    access restrictions and configuration flags *)
Definition PrintServiceInfo (conf : Config) (birdConf : bird.BirdConfig)
  : Proc unit :=
  (* General Info *)
  log_Println [AStr "Starting Birdwatcher"] ;;
  log_Println [AStr "            Using:"; AStr (bird.BirdCmd birdConf)] ;;
  log_Println [AStr "           Listen:"; AStr (bird.Listen birdConf)] ;;
  log_Println [AStr "        Cache TTL:"; AInt (bird.CacheTtl birdConf)] ;;
  (* Endpoint Info *)
  (if Nat.eqb (length (endpoints.AllowFrom (Server conf))) 0 then
     log_Println [AStr "        AllowFrom: ALL"]
   else
     log_Println [AStr "        AllowFrom:";
                  AStr (String.concat ", " (endpoints.AllowFrom (Server conf)))]) ;;
  log_Println [AStr "   ModulesEnabled:"] ;;
  for_range (endpoints.ModulesEnabled (Server conf)) (fun m =>
    log_Println [AStr "       -"; AStr m]) ;;
  log_Println [AStr "   Per Peer Tables:";
               ABool (bird.PerPeerTables (Parser conf))].

(** Lines 174 to 177 with the guard around them, and lines 138 to 142:
    [if conf.Server.EnableTLS { if len(Crt) == 0 || len(Key) == 0 { ... } }] *)
Definition tls_material_missing (server : endpoints.ServerConfig) : bool :=
  Nat.eqb (String.length (endpoints.Crt server)) 0
  || Nat.eqb (String.length (endpoints.Key server)) 0.

Definition msg_tls_after_load : string :=
  "You have enabled TLS support. Please specify 'crt' and 'key' in birdwatcher config file.".

Definition msg_tls_before_bind : string :=
  "You have enabled TLS support but not specified both a .crt and a .key file in the config.".

(** [main], lines 126 to 142: the flags, the configuration, and the first
    look at the TLS material. *)
Definition main_load (env : Env) : Proc (Flags * Config) :=
  flags ← flag_Parse env;
  store "bird.WorkerPoolSize" (VInt (workerPoolSize flags)) ;;
  loaded ← call_LoadConfigs env [configfile flags];
  match loaded with
  | inr err =>
      log_Fatal [AStr "Loading birdwatcher configuration failed:"; AErr err]
  | inl conf =>
      (if endpoints.EnableTLS (Server conf) then
         if tls_material_missing (Server conf) then
           log_Fatalln [AStr msg_tls_after_load]
         else mret tt
       else mret tt) ;;
      mret (flags, conf)
  end.

(** [main], lines 144 to 172: the backend, the collaborators' settings,
    the router and the access logger. *)
Definition main_configure (env : Env) (flags : Flags) (conf : Config)
  : Proc (bird.BirdConfig * Handler) :=
  store "endpoints.VERSION" (VString VERSION) ;;
  bird_InstallRateLimitReset ;;
  (* Get config according to flags *)
  birdConf ← (if bird6 flags then
                store "bird.IPVersion" (VString "6") ;;
                mret (Bird6 conf)
              else mret (Bird conf));
  PrintServiceInfo conf birdConf ;;
  (* Configuration *)
  store "bird.ClientConf" (VBirdConfig birdConf) ;;
  store "bird.StatusConf" (VStatusConfig (Status conf)) ;;
  store "bird.RateLimitConf.Conf" (VRateLimitConfig (Ratelimit conf)) ;;
  store "bird.ParserConf" (VParserConfig (Parser conf)) ;;
  store "endpoints.Conf" (VServerConfig (Server conf)) ;;
  (* Make server *)
  r ← or_panic (makeRouter (Server conf));
  (* Set up our own custom log.Logger *)
  let ts := now env in
  log_SetPrefix ts ;;
  let myquerylog := log.New log.Stdout (ts +:+ " " +:+ "QUERY" +:+ ": ") 0 in
  let mylogger := mkMyLogger myquerylog in
  mret (birdConf, LoggingHandler mylogger r).

(** [main], lines 174 to 181: the second look at the TLS material, and the
    listener. *)
Definition main_serve (env : Env) (conf : Config) (birdConf : bird.BirdConfig)
  (handler : Handler) : Proc unit :=
  if endpoints.EnableTLS (Server conf) then
    (if tls_material_missing (Server conf) then
       log_Fatalln [AStr msg_tls_before_bind]
     else mret tt) ;;
    err ← http_ListenAndServeTLS env (bird.Listen birdConf)
            (endpoints.Crt (Server conf)) (endpoints.Key (Server conf)) handler;
    log_Fatal [AErr err]
  else
    err ← http_ListenAndServe env (bird.Listen birdConf) handler;
    log_Fatal [AErr err].

Definition main (env : Env) : Proc unit :=
  '(flags, conf) ← main_load env;
  '(birdConf, handler) ← main_configure env flags conf;
  main_serve env conf birdConf handler.

(** The process, started with the package variables as the collaborators
    initialised them. *)
Definition run (env : Env) (init : gmap string Value) : Result unit * World :=
  main env (mkWorld init []).

(** The package variables after the assignments of a trace. *)
Definition replay (events : list Event) (g : gmap string Value)
  : gmap string Value :=
  fold_left (fun g e => match e with
                        | EvStore var v => <[var := v]> g
                        | _ => g
                        end) events g.

(** The world after further events. *)
Definition extend (w : World) (events : list Event) : World :=
  mkWorld (replay events (globals w)) (trace w ++ events).

(** The backend configuration that the flag selects. *)
Definition selected (flags : Flags) (conf : Config) : bird.BirdConfig :=
  if bird6 flags then Bird6 conf else Bird conf.

(** The lines of [PrintServiceInfo]. *)
Definition service_info (conf : Config) (birdConf : bird.BirdConfig)
  : list Event :=
  [ EvPrintln [AStr "Starting Birdwatcher"];
    EvPrintln [AStr "            Using:"; AStr (bird.BirdCmd birdConf)];
    EvPrintln [AStr "           Listen:"; AStr (bird.Listen birdConf)];
    EvPrintln [AStr "        Cache TTL:"; AInt (bird.CacheTtl birdConf)];
    (match endpoints.AllowFrom (Server conf) with
     | [] => EvPrintln [AStr "        AllowFrom: ALL"]
     | _ :: _ =>
         EvPrintln [AStr "        AllowFrom:";
                    AStr (String.concat ", " (endpoints.AllowFrom (Server conf)))]
     end);
    EvPrintln [AStr "   ModulesEnabled:"] ]
  ++ map (fun m => EvPrintln [AStr "       -"; AStr m])
         (endpoints.ModulesEnabled (Server conf))
  ++ [ EvPrintln [AStr "   Per Peer Tables:";
                  ABool (bird.PerPeerTables (Parser conf))] ].

(** The events of [main_load] up to the loading of the configuration. *)
Definition load_trace (flags : Flags) : list Event :=
  [ EvFlagParse;
    EvStore "bird.WorkerPoolSize" (VInt (workerPoolSize flags));
    EvLoadConfigs [configfile flags] ].

(** The events of [main_configure]. *)
Definition configure_trace (env : Env) (flags : Flags) (conf : Config)
  : list Event :=
  [ EvStore "endpoints.VERSION" (VString VERSION); EvInstallRateLimitReset ]
  ++ (if bird6 flags then [EvStore "bird.IPVersion" (VString "6")] else [])
  ++ service_info conf (selected flags conf)
  ++ [ EvStore "bird.ClientConf" (VBirdConfig (selected flags conf));
       EvStore "bird.StatusConf" (VStatusConfig (Status conf));
       EvStore "bird.RateLimitConf.Conf" (VRateLimitConfig (Ratelimit conf));
       EvStore "bird.ParserConf" (VParserConfig (Parser conf));
       EvStore "endpoints.Conf" (VServerConfig (Server conf));
       EvSetPrefix (now env) ].

(** The handler that [main] serves: the router of the enabled routes
    behind the access log. *)
Definition access_handler (env : Env) (conf : Config) : Handler :=
  LoggingHandler
    (mkMyLogger (log.New log.Stdout (now env +:+ " " +:+ "QUERY" +:+ ": ") 0))
    (router_of (enabled_routes (endpoints.ModulesEnabled (Server conf)))).

(** The TLS gate: enabled, and the certificate or the key is missing. *)
Definition tls_gate_fails (conf : Config) : bool :=
  endpoints.EnableTLS (Server conf) && tls_material_missing (Server conf).

(** How the listener ends: with the fatal log of its error, or never. *)
Definition listener_end (env : Env) : list Event :=
  match serve_error env with
  | Some err => [EvFatal [AErr err]]
  | None => []
  end.

Definition listener_result (env : Env) : Result unit :=
  match serve_error env with
  | Some _ => Exit 1
  | None => Serving
  end.

(** The events of [main_serve]. *)
Definition serve_trace (env : Env) (conf : Config) (birdConf : bird.BirdConfig)
  (handler : Handler) : list Event :=
  if endpoints.EnableTLS (Server conf) then
    if tls_material_missing (Server conf) then
      [EvFatalln [AStr msg_tls_before_bind]]
    else
      EvListenAndServeTLS (bird.Listen birdConf) (endpoints.Crt (Server conf))
                          (endpoints.Key (Server conf)) handler
      :: listener_end env
  else EvListenAndServe (bird.Listen birdConf) handler :: listener_end env.

Definition serve_result (env : Env) (conf : Config) : Result unit :=
  if tls_gate_fails conf then Exit 1 else listener_result env.

(** The address that a bind event names. *)
Definition bind_addr (e : Event) : option string :=
  match e with
  | EvListenAndServe addr _ | EvListenAndServeTLS addr _ _ _ => Some addr
  | _ => None
  end.

Definition is_bind (e : Event) : bool :=
  match e with
  | EvListenAndServe _ _ | EvListenAndServeTLS _ _ _ _ => true
  | _ => false
  end.

Definition is_store_of (var : string) (e : Event) : bool :=
  match e with
  | EvStore var' _ => String.eqb var' var
  | _ => false
  end.

End Startup.

(** A configuration and an environment to run the process on: two
    modules enabled, the two backends on their own ports. *)
Definition demo_conf (tls : bool) (crt key : string) : @Config unit unit :=
  mkConfig (endpoints.mkServerConfig [] ["status"; "routes_peer"] tls crt key)
           tt tt
           (bird.mkBirdConfig "0.0.0.0:29184" "birdc" 5)
           (bird.mkBirdConfig "0.0.0.0:29186" "birdc6" 5)
           (bird.mkParserConfig false).

Definition demo_flags (six : bool) : Flags :=
  mkFlags six 8 "etc/birdwatcher/birdwatcher.conf".

Definition demo_env (six : bool) (conf : @Config unit unit)
  (serve_error : option error) : @Env unit unit :=
  mkEnv (inl (demo_flags six)) (fun _ => inl conf) "2026/01/02 03:04:05"
        serve_error.

(** [Write] called for each of a list of byte sequences, one call after
    the other, as the access log does for the lines of successive
    requests; the results of the calls, in order. *)
Fixpoint Write_each {W} (Logger_Print : log.Logger -> string -> W -> W)
  (m : MyLogger) (ps : list (list Byte.byte)) (w : W)
  : list (Z * option error) * W :=
  match ps with
  | [] => ([], w)
  | p :: ps' =>
      let '(res, w1) := Write Logger_Print m p w in
      let '(rest, w2) := Write_each Logger_Print m ps' w1 in
      (res :: rest, w2)
  end.

Section Observations.
Context {StatusConfig RateLimitConfig : Type}.

(** The events that a computation adds to the trace of the world it
    starts in. *)
Definition added {A} (m : @Proc StatusConfig RateLimitConfig A)
  (w : @World StatusConfig RateLimitConfig)
  : list (@Event StatusConfig RateLimitConfig) :=
  drop (length (trace w)) (trace (snd (m w))).

(** Is the event the fatal log of the one message [msg]. *)
Definition is_fatalln_with (msg : string)
  (e : @Event StatusConfig RateLimitConfig) : bool :=
  match e with
  | EvFatalln [AStr s] => String.eqb s msg
  | _ => false
  end.

End Observations.

(* ===================================================================== *)
(** * Properties of the route builder                                    *)
(* ===================================================================== *)

Section isModuleEnabled_facts.

Lemma isModuleEnabled_true_In module whitelist :
  isModuleEnabled module whitelist = true -> In module whitelist.
Proof.
  induction whitelist as [|enabled rest IH]; simpl; [discriminate|].
  destruct (String.eqb_spec enabled module) as [->|_]; auto.
Qed.

Lemma isModuleEnabled_In_true module whitelist :
  In module whitelist -> isModuleEnabled module whitelist = true.
Proof.
  induction whitelist as [|enabled rest IH]; simpl; [tauto|].
  intros [->|Hin].
  - now rewrite String.eqb_refl.
  - destruct (String.eqb enabled module); auto.
Qed.

Lemma isModuleEnabled_false_iff module whitelist :
  isModuleEnabled module whitelist = false <-> ~ In module whitelist.
Proof.
  split.
  - intros Hf Hin. apply isModuleEnabled_In_true in Hin. congruence.
  - intros Hn. destruct (isModuleEnabled module whitelist) eqn:E; [|reflexivity].
    apply isModuleEnabled_true_In in E. contradiction.
Qed.

(** Two whitelists with the same members enable the same modules. *)
Lemma isModuleEnabled_ext module wl1 wl2 :
  (forall x, In x wl1 <-> In x wl2) ->
  isModuleEnabled module wl1 = isModuleEnabled module wl2.
Proof.
  intros Hsame.
  destruct (isModuleEnabled module wl1) eqn:E1, (isModuleEnabled module wl2) eqn:E2;
    try reflexivity.
  - apply isModuleEnabled_true_In, Hsame, isModuleEnabled_In_true in E1. congruence.
  - apply isModuleEnabled_true_In, Hsame, isModuleEnabled_In_true in E2. congruence.
Qed.

End isModuleEnabled_facts.

(** C4: [isModuleEnabled module whitelist] is true exactly when the string
    [module] is an element of [whitelist]; the comparison is on the whole
    string and on its bytes, so an entry "Status" does not enable "status",
    nor does a prefix or a longer name. *)
Theorem isModuleEnabled_exact :
  (forall module whitelist,
      isModuleEnabled module whitelist = true <-> In module whitelist)
  /\ isModuleEnabled "status" ["Status"] = false
  /\ isModuleEnabled "status" ["STATUS"; "stat"; "status "; "statuses"] = false
  /\ isModuleEnabled "status" ["protocols"; "status"] = true.
Proof.
  split; [|repeat split; reflexivity].
  intros module whitelist. split.
  - apply isModuleEnabled_true_In.
  - apply isModuleEnabled_In_true.
Qed.

Section Registration.
Context {H : Type}.
Implicit Types (r : httprouter.Router H) (rows root : list (httprouter.Route H)).

Lemma GET_unfold path handle r :
  httprouter.GET path handle r
  = if String.prefix "/" path && negb (httprouter.clashes path (gets r))
    then Some (tt, httprouter.mkRouter
                     (<["GET" := gets r ++ [(path, handle)]]> (httprouter.trees r)))
    else None.
Proof.
  unfold httprouter.GET, httprouter.Handle, gets.
  destruct (String.prefix "/" path); simpl; [|reflexivity].
  destruct (httprouter.clashes path _); reflexivity.
Qed.

Lemma register_app rows1 rows2 r :
  register (rows1 ++ rows2) r = (register rows1 ;; register rows2) r.
Proof.
  revert r. induction rows1 as [|[path handle] rows1 IH]; intros r; [reflexivity|].
  simpl. unfold mbind, httprouter.Build_bind, httprouter.bind.
  destruct (httprouter.GET path handle r) as [[[] r']|]; [|reflexivity].
  apply IH.
Qed.

(** A block [if b { r.GET(p, h) }] followed by the rest. *)
Lemma register_when1 (b : bool) path handle (rest : httprouter.Build H unit) rows :
  (forall r, rest r = register rows r) ->
  forall r,
    (httprouter.when b (httprouter.GET path handle) ;; rest) r
    = register ((if b then [(path, handle)] else []) ++ rows) r.
Proof.
  intros Hrest r. destruct b; simpl;
    unfold mbind, httprouter.Build_bind, httprouter.bind; simpl.
  - destruct (httprouter.GET path handle r) as [[[] r']|]; auto.
  - apply Hrest.
Qed.

(** A block [if b { r.GET(p1, h1); r.GET(p2, h2) }] followed by the rest. *)
Lemma register_when2 (b : bool) p1 h1 p2 h2 (rest : httprouter.Build H unit) rows :
  (forall r, rest r = register rows r) ->
  forall r,
    (httprouter.when b (httprouter.GET p1 h1 ;; httprouter.GET p2 h2) ;; rest) r
    = register ((if b then [(p1, h1); (p2, h2)] else []) ++ rows) r.
Proof.
  intros Hrest r. destruct b; simpl;
    unfold mbind, httprouter.Build_bind, httprouter.bind; simpl.
  - destruct (httprouter.GET p1 h1 r) as [[[] r1]|]; [|reflexivity].
    destruct (httprouter.GET p2 h2 r1) as [[[] r2]|]; auto.
  - apply Hrest.
Qed.

(** The last block. *)
Lemma register_when_last (b : bool) path handle r :
  httprouter.when b (httprouter.GET path handle) r
  = register ((if b then [(path, handle)] else []) ++ []) r.
Proof.
  destruct b; simpl; [|reflexivity].
  unfold mbind, httprouter.Build_bind, httprouter.bind.
  destruct (httprouter.GET path handle r) as [[[] r']|]; reflexivity.
Qed.

(** When the checks pass, the routes are appended under GET, and nothing
    else of the router changes. *)
Lemma register_registrable rows : forall r,
  registrable (gets r) rows = true ->
  register rows r
  = Some (tt, match rows with
              | [] => r
              | _ :: _ => httprouter.mkRouter
                            (<["GET" := gets r ++ rows]> (httprouter.trees r))
              end).
Proof.
  induction rows as [|[path handle] rows IH]; intros r Hok; [reflexivity|].
  simpl in Hok. apply andb_prop in Hok as [Hhead Hrest].
  simpl. unfold mbind, httprouter.Build_bind, httprouter.bind.
  rewrite GET_unfold, Hhead.
  set (r1 := httprouter.mkRouter _).
  assert (Hgets : gets r1 = gets r ++ [(path, handle)]).
  { unfold gets, r1. simpl. now rewrite lookup_insert_eq. }
  rewrite IH by now rewrite Hgets.
  destruct rows as [|row rows]; [reflexivity|].
  rewrite Hgets. unfold r1. simpl.
  now rewrite insert_insert_eq, <- app_assoc.
Qed.

Lemma clashes_incl path root1 root2 :
  (forall rt, In rt root1 -> In rt root2) ->
  httprouter.clashes path root1 = true -> httprouter.clashes path root2 = true.
Proof.
  unfold httprouter.clashes. intros Hincl Hc.
  apply existsb_exists in Hc as (rt & Hin & Hrt).
  apply existsb_exists. exists rt. auto.
Qed.

(** Fewer routes on top of fewer routes pass the checks all the more. *)
Lemma registrable_sublist rows1 rows2 :
  rows1 `sublist_of` rows2 ->
  forall root1 root2,
    (forall rt, In rt root1 -> In rt root2) ->
    registrable root2 rows2 = true -> registrable root1 rows1 = true.
Proof.
  induction 1 as [|[path handle] rows1 rows2 Hsub IH|[path handle] rows1 rows2 Hsub IH];
    intros root1 root2 Hincl Hok; [reflexivity| |].
  - simpl in *. apply andb_prop in Hok as [Hhead Hrest].
    apply andb_prop in Hhead as [Hslash Hclash].
    rewrite Hslash. simpl.
    destruct (httprouter.clashes path root1) eqn:E.
    { apply (clashes_incl _ _ root2) in E; [|assumption].
      rewrite E in Hclash. discriminate. }
    simpl. apply (IH _ (root2 ++ [(path, handle)])); [|assumption].
    intros rt Hin. apply in_app_iff in Hin. apply in_app_iff.
    destruct Hin; auto.
  - simpl in Hok. apply andb_prop in Hok as [_ Hrest].
    apply (IH _ (root2 ++ [(path, handle)])); [|assumption].
    intros rt Hin. apply in_app_iff. auto.
Qed.

End Registration.

Section makeRouter_facts.
Implicit Types (config : endpoints.ServerConfig) (whitelist : list string).

Lemma enabled_routes_sublist whitelist :
  enabled_routes whitelist `sublist_of` all_routes.
Proof.
  unfold enabled_routes, all_routes.
  induction routes_table as [|g table IH]; simpl; [constructor|].
  apply sublist_app; [|exact IH].
  destruct (isModuleEnabled (fst g) whitelist); [reflexivity|apply sublist_nil_l].
Qed.

Lemma all_routes_registrable : registrable [] all_routes = true.
Proof. vm_compute. reflexivity. Qed.

Lemma enabled_routes_registrable whitelist :
  registrable [] (enabled_routes whitelist) = true.
Proof.
  apply (registrable_sublist _ all_routes (enabled_routes_sublist whitelist) [] []);
    [tauto|apply all_routes_registrable].
Qed.

(** The registrations of [makeRouter] are those of the enabled rows of the
    table, in the order of the table. *)
Lemma makeRouter_register config :
  makeRouter config
  = match register (enabled_routes (endpoints.ModulesEnabled config)) httprouter.New with
    | Some (_, r) => Some r
    | None => None
    end.
Proof.
  unfold makeRouter. cbv zeta.
  match goal with
  | |- match ?m httprouter.New with _ => _ end = _ =>
      assert (Hm : forall r,
                 m r = register (enabled_routes (endpoints.ModulesEnabled config)) r)
  end.
  { unfold enabled_routes, routes_table. cbn [flat_map fst snd].
    repeat (apply register_when2 || apply register_when1).
    apply register_when_last. }
  now rewrite Hm.
Qed.

(** [makeRouter] never panics, and its router holds exactly the enabled
    rows of the table. *)
Lemma makeRouter_enabled_routes config :
  makeRouter config
  = Some (router_of (enabled_routes (endpoints.ModulesEnabled config))).
Proof.
  rewrite makeRouter_register.
  rewrite register_registrable.
  - unfold router_of, gets, httprouter.New. simpl.
    destruct (enabled_routes _); [reflexivity|].
    now rewrite lookup_empty.
  - unfold gets, httprouter.New. simpl. rewrite lookup_empty.
    apply enabled_routes_registrable.
Qed.

(** The router depends on the whitelist only through its members. *)
Lemma enabled_routes_ext wl1 wl2 :
  (forall x, In x wl1 <-> In x wl2) -> enabled_routes wl1 = enabled_routes wl2.
Proof.
  intros Hsame. unfold enabled_routes.
  induction routes_table as [|g table IH]; simpl; [reflexivity|].
  now rewrite IH, (isModuleEnabled_ext _ wl1 wl2 Hsame).
Qed.

Lemma In_enabled_routes whitelist pattern handle :
  In (pattern, handle) (enabled_routes whitelist)
  <-> exists module,
        In (module, "GET", pattern, handle) table_rows
        /\ isModuleEnabled module whitelist = true.
Proof.
  unfold enabled_routes, table_rows. rewrite in_flat_map. split.
  - intros ([module rows] & Hg & Hin). simpl in Hin.
    destruct (isModuleEnabled module whitelist) eqn:E; [|contradiction].
    exists module. split; [|assumption].
    apply in_flat_map. exists (module, rows). split; [assumption|].
    simpl. apply in_map_iff. now exists (pattern, handle).
  - intros (module & Hrow & Hen).
    apply in_flat_map in Hrow as ([module' rows] & Hg & Hin).
    simpl in Hin. apply in_map_iff in Hin as ([pattern' handle'] & Heq & Hin).
    simpl in Heq. injection Heq as -> -> ->.
    exists (module, rows). split; [assumption|]. simpl. now rewrite Hen.
Qed.

End makeRouter_facts.

Section Matching.

Lemma match_segs_overlap p : forall q path ps1 ps2,
  httprouter.match_segs p path = Some ps1 ->
  httprouter.match_segs q path = Some ps2 ->
  httprouter.overlap p q = true.
Proof.
  induction p as [|s p IH]; intros q path ps1 ps2 H1 H2.
  - destruct path; [|discriminate].
    destruct q as [|[]]; [reflexivity|discriminate|discriminate].
  - destruct path as [|x path]; [destruct s; discriminate|].
    destruct q as [|t q]; [discriminate|].
    assert (Htail : httprouter.overlap p q = true).
    { destruct s as [a|a], t as [b|b]; simpl in H1, H2;
        repeat match type of H1 with
               | context [if ?c then _ else _] => destruct c; try discriminate
               end;
        repeat match type of H2 with
               | context [if ?c then _ else _] => destruct c; try discriminate
               end;
        destruct (httprouter.match_segs p path) eqn:E1; try discriminate;
        destruct (httprouter.match_segs q path) eqn:E2; try discriminate;
        eapply IH; eauto. }
    destruct s as [a|a], t as [b|b]; simpl; try assumption.
    simpl in H1, H2.
    destruct (String.eqb_spec a x) as [->|]; [|discriminate].
    destruct (String.eqb_spec b x) as [->|]; [|discriminate].
    now rewrite String.eqb_refl.
Qed.

Lemma match_path_overlap pattern1 pattern2 path ps1 ps2 :
  httprouter.match_path pattern1 path = Some ps1 ->
  httprouter.match_path pattern2 path = Some ps2 ->
  httprouter.overlap (httprouter.parse pattern1) (httprouter.parse pattern2) = true.
Proof.
  unfold httprouter.match_path.
  destruct (httprouter.split path) as [|[|c s] segs]; try discriminate.
  apply match_segs_overlap.
Qed.

Context {H : Type}.
Implicit Types (root : list (httprouter.Route H)).

Lemma find_route_none root path :
  (forall pattern handle,
      In (pattern, handle) root -> httprouter.match_path pattern path = None) ->
  httprouter.find_route root path = None.
Proof.
  induction root as [|[pattern handle] root IH]; intros Hnone; [reflexivity|].
  simpl. rewrite (Hnone pattern handle) by now left.
  apply IH. intros p h Hin. apply (Hnone p h). now right.
Qed.

Lemma find_route_only root path pattern handle ps :
  In (pattern, handle) root ->
  httprouter.match_path pattern path = Some ps ->
  (forall pattern' handle' ps',
      In (pattern', handle') root ->
      httprouter.match_path pattern' path = Some ps' ->
      (pattern', handle') = (pattern, handle)) ->
  httprouter.find_route root path = Some (handle, ps).
Proof.
  induction root as [|[pattern0 handle0] root IH]; intros Hin Hm Honly;
    [contradiction|].
  simpl. destruct (httprouter.match_path pattern0 path) as [ps0|] eqn:E0.
  - specialize (Honly pattern0 handle0 ps0 (or_introl eq_refl) E0).
    injection Honly as -> ->. congruence.
  - destruct Hin as [Heq|Hin]; [injection Heq as -> ->; congruence|].
    apply IH; auto. intros p h ps' Hin'. apply (Honly p h ps'). now right.
Qed.

End Matching.

Section Dispatch.

(** No request path matches the patterns of two rows of the table. *)
Lemma table_rows_disjoint :
  Forall (fun row1 =>
    Forall (fun row2 =>
      httprouter.overlap (httprouter.parse (snd (fst row1)))
                         (httprouter.parse (snd (fst row2))) = true ->
      row1 = row2) table_rows) table_rows.
Proof. apply (bool_decide_unpack _). vm_compute. exact I. Qed.

Lemma table_rows_same_path row1 row2 path ps1 ps2 :
  In row1 table_rows -> In row2 table_rows ->
  httprouter.match_path (snd (fst row1)) path = Some ps1 ->
  httprouter.match_path (snd (fst row2)) path = Some ps2 ->
  row1 = row2.
Proof.
  intros Hin1 Hin2 Hm1 Hm2.
  pose proof table_rows_disjoint as Hd.
  rewrite List.Forall_forall in Hd. specialize (Hd row1 Hin1).
  rewrite List.Forall_forall in Hd. apply (Hd row2 Hin2).
  eapply match_path_overlap; eauto.
Qed.

Lemma table_rows_method module method pattern handle :
  In (module, method, pattern, handle) table_rows -> method = "GET".
Proof.
  unfold table_rows. rewrite in_flat_map. intros (g & _ & Hin).
  apply in_map_iff in Hin as (rt & Heq & _). injection Heq as _ <- _ _.
  reflexivity.
Qed.

Lemma Lookup_router_of routes path :
  httprouter.Lookup (router_of routes) "GET" path
  = httprouter.find_route routes path.
Proof.
  unfold httprouter.Lookup, router_of.
  destruct routes as [|rt routes]; simpl.
  - now rewrite lookup_empty.
  - now rewrite lookup_insert_eq.
Qed.

End Dispatch.

(** C1: for every whitelist and every row (module, method, path) of the
    route table, the router that [makeRouter] builds answers a request of
    that method whose path matches the row's pattern with the row's handler
    when the module is in the whitelist, and with not-found when it is
    not.  [makeRouter] always returns a router. *)
Theorem makeRouter_dispatch
  (config : endpoints.ServerConfig)
  (module method pattern : string) (handle : endpoints.Handle) :
  In (module, method, pattern, handle) table_rows ->
  exists r,
    makeRouter config = Some r
    /\ forall path ps,
        httprouter.match_path pattern path = Some ps ->
        (In module (endpoints.ModulesEnabled config) ->
         httprouter.ServeHTTP r method path = httprouter.Dispatched handle ps)
        /\ (~ In module (endpoints.ModulesEnabled config) ->
            httprouter.ServeHTTP r method path = httprouter.NotFound).
Proof.
  intros Hrow. pose proof (table_rows_method _ _ _ _ Hrow) as ->.
  exists (router_of (enabled_routes (endpoints.ModulesEnabled config))).
  split; [apply makeRouter_enabled_routes|].
  intros path ps Hmatch. unfold httprouter.ServeHTTP.
  rewrite Lookup_router_of. split; intros Hmem.
  - rewrite (find_route_only _ path pattern handle ps); [reflexivity| |assumption|].
    + apply In_enabled_routes. exists module.
      split; [assumption|now apply isModuleEnabled_In_true].
    + intros pattern' handle' ps' Hin' Hmatch'.
      apply In_enabled_routes in Hin' as (module' & Hrow' & _).
      pose proof (table_rows_same_path _ _ path ps' ps Hrow' Hrow Hmatch' Hmatch) as Heq.
      congruence.
  - rewrite find_route_none; [reflexivity|].
    intros pattern' handle' Hin'.
    apply In_enabled_routes in Hin' as (module' & Hrow' & Hen').
    destruct (httprouter.match_path pattern' path) as [ps'|] eqn:Hmatch'; [|reflexivity].
    pose proof (table_rows_same_path _ _ path ps' ps Hrow' Hrow Hmatch' Hmatch) as Heq.
    injection Heq as -> -> ->.
    apply isModuleEnabled_true_In in Hen'. contradiction.
Qed.

(** The third testable property of the specification. *)
Example makeRouter_status_peer :
  match makeRouter (endpoints.mkServerConfig [] ["status"; "routes_peer"] false "" "") with
  | Some r =>
      httprouter.ServeHTTP r "GET" "/protocols" = httprouter.NotFound
      /\ httprouter.ServeHTTP r "GET" "/routes/peer"
         = httprouter.Dispatched (endpoints.Endpoint endpoints.RoutesPeer) []
      /\ httprouter.ServeHTTP r "GET" "/version"
         = httprouter.Dispatched (endpoints.Version "1.11.2") []
  | None => False
  end.
Proof. vm_compute. auto. Qed.

(** A parameter that is followed by more of the pattern may be empty:
    the network of a route may be the empty string. *)
Example makeRouter_route_net_empty :
  match makeRouter (endpoints.mkServerConfig [] ["route_net"] false "" "") with
  | Some r =>
      httprouter.ServeHTTP r "GET" "/route/net//table/master"
      = httprouter.Dispatched (endpoints.Endpoint endpoints.RouteNetTable)
                              [("net", ""); ("table", "master")]
      /\ httprouter.ServeHTTP r "GET" "/route/net/10.0.0.0/table/master"
         = httprouter.Dispatched (endpoints.Endpoint endpoints.RouteNetTable)
                                 [("net", "10.0.0.0"); ("table", "master")]
  | None => False
  end.
Proof. vm_compute. auto. Qed.

(** Membership in a given list, by evaluation. *)
Ltac decide_In :=
  rewrite <- list_elem_of_In; apply (bool_decide_unpack _); vm_compute; exact I.

(** A concrete case of [makeRouter_dispatch]: with the whitelist
    ["status"; "routes_protocol"], the routes of a protocol are served and
    the symbols are not. *)
Lemma makeRouter_dispatch_witness :
  let config :=
    endpoints.mkServerConfig [] ["status"; "routes_protocol"] false "" "" in
  exists r,
    makeRouter config = Some r
    /\ httprouter.ServeHTTP r "GET" "/routes/protocol/bgp1"
       = httprouter.Dispatched (endpoints.Endpoint endpoints.ProtoRoutes)
                               [("protocol", "bgp1")]
    /\ httprouter.ServeHTTP r "GET" "/symbols" = httprouter.NotFound.
Proof.
  intros config.
  assert (Hrow1 : In ("routes_protocol", "GET", "/routes/protocol/:protocol",
                      endpoints.Endpoint endpoints.ProtoRoutes) table_rows).
  { decide_In. }
  assert (Hrow2 : In ("symbols", "GET", "/symbols",
                      endpoints.Endpoint endpoints.Symbols) table_rows).
  { decide_In. }
  destruct (makeRouter_dispatch config _ _ _ _ Hrow1) as (r & Hr & Hserve1).
  destruct (makeRouter_dispatch config _ _ _ _ Hrow2) as (r' & Hr' & Hserve2).
  assert (r' = r) as -> by congruence.
  exists r. split; [exact Hr|]. split.
  - apply (Hserve1 "/routes/protocol/bgp1" [("protocol", "bgp1")]); [reflexivity|].
    simpl. auto.
  - apply (Hserve2 "/symbols" []); [reflexivity|].
    simpl. intros [Heq|[Heq|[]]]; discriminate.
Defined.

Section Whitelists.
Implicit Types (config : endpoints.ServerConfig) (wl : list string).

(** The enabled routes depend on the whitelist only through the known
    modules that it holds. *)
Lemma enabled_routes_agree wl1 wl2 :
  (forall module, In module known_modules ->
                  isModuleEnabled module wl1 = isModuleEnabled module wl2) ->
  enabled_routes wl1 = enabled_routes wl2.
Proof.
  unfold enabled_routes, known_modules.
  induction routes_table as [|g table IH]; simpl; intros Hagree; [reflexivity|].
  rewrite IH by (intros module Hin; apply Hagree; now right).
  now rewrite (Hagree (fst g)) by now left.
Qed.

Lemma with_copies_members m wl wl' :
  In m wl -> with_copies m wl wl' -> forall x, In x wl' <-> In x wl.
Proof.
  intros Hm Hcopies. induction Hcopies as [|l1 l2 _ IH]; intros x; [tauto|].
  rewrite <- IH, !in_app_iff. simpl.
  split; [|tauto].
  intros [H1|[<-|H2]]; auto.
  apply in_app_iff, IH. exact Hm.
Qed.

Lemma isModuleEnabled_insert_other module u l1 l2 :
  u <> module ->
  isModuleEnabled module (l1 ++ u :: l2) = isModuleEnabled module (l1 ++ l2).
Proof.
  intros Hne. induction l1 as [|x l1 IH]; simpl.
  - destruct (String.eqb_spec u module); [contradiction|reflexivity].
  - now rewrite IH.
Qed.

Lemma all_routes_patterns_NoDup : NoDup (map fst all_routes).
Proof. apply (bool_decide_unpack _). vm_compute. exact I. Qed.

Lemma enabled_routes_patterns_NoDup wl : NoDup (map fst (enabled_routes wl)).
Proof.
  apply (sublist_NoDup _ (map fst all_routes)).
  - apply all_routes_patterns_NoDup.
  - apply (fmap_sublist fst), enabled_routes_sublist.
Qed.

Lemma gets_router_of routes : gets (router_of routes) = routes.
Proof.
  unfold gets, router_of. destruct routes; simpl.
  - now rewrite lookup_empty.
  - now rewrite lookup_insert_eq.
Qed.

End Whitelists.

(** C5: a whitelist in which a module that it holds occurs further times,
    anywhere, gives the same router as the whitelist itself, and in that
    router every pattern is registered once: its routes are the rows of the
    enabled modules, no pattern twice. *)
Theorem makeRouter_duplicates
  (config config' : endpoints.ServerConfig) (m : string) :
  In m (endpoints.ModulesEnabled config) ->
  with_copies m (endpoints.ModulesEnabled config)
              (endpoints.ModulesEnabled config') ->
  exists r,
    makeRouter config' = Some r
    /\ makeRouter config = Some r
    /\ NoDup (map fst (gets r))
    /\ forall pattern handle,
        In (pattern, handle) (gets r)
        <-> exists module,
              In (module, "GET", pattern, handle) table_rows
              /\ In module (endpoints.ModulesEnabled config).
Proof.
  intros Hm Hcopies.
  exists (router_of (enabled_routes (endpoints.ModulesEnabled config))).
  rewrite !makeRouter_enabled_routes, gets_router_of.
  rewrite (enabled_routes_ext (endpoints.ModulesEnabled config')
                              (endpoints.ModulesEnabled config))
    by now apply (with_copies_members m).
  repeat split; try apply enabled_routes_patterns_NoDup.
  - intros Hin. apply In_enabled_routes in Hin as (module & Hrow & Hen).
    exists module. split; [assumption|now apply isModuleEnabled_true_In].
  - intros (module & Hrow & Hin). apply In_enabled_routes.
    exists module. split; [assumption|now apply isModuleEnabled_In_true].
Qed.

(** A concrete case of [makeRouter_duplicates]: "status" three times. *)
Lemma makeRouter_duplicates_witness :
  exists r,
    makeRouter (endpoints.mkServerConfig []
                  ["status"; "status"; "routes_peer"; "status"] false "" "") = Some r
    /\ makeRouter (endpoints.mkServerConfig []
                     ["status"; "routes_peer"] true "c" "k") = Some r
    /\ map fst (gets r) = ["/version"; "/status"; "/routes/peer"].
Proof.
  destruct (makeRouter_duplicates
              (endpoints.mkServerConfig [] ["status"; "routes_peer"] true "c" "k")
              (endpoints.mkServerConfig []
                 ["status"; "status"; "routes_peer"; "status"] false "" "")
              "status")
    as (r & Hr' & Hr & _).
  - simpl. auto.
  - simpl. apply (copies_more _ _ ["status"]).
    apply (copies_more _ _ ["status"; "routes_peer"] []).
    apply copies_none.
  - exists r. split; [exact Hr'|]. split; [exact Hr|].
    vm_compute in Hr. injection Hr as <-. reflexivity.
Defined.

(** C8: a name that is not one of the known module names, put anywhere
    into a whitelist, changes nothing: [makeRouter] returns a router, and
    it is the router of the whitelist without that name.  ([makeRouter]
    has no other effect than the router it returns.) *)
Theorem makeRouter_unknown_module
  (config config' : endpoints.ServerConfig) (u : string) (l1 l2 : list string) :
  ~ In u known_modules ->
  endpoints.ModulesEnabled config = l1 ++ l2 ->
  endpoints.ModulesEnabled config' = l1 ++ u :: l2 ->
  exists r,
    makeRouter config' = Some r
    /\ makeRouter config = Some r
    /\ (forall pattern handle,
          In (pattern, handle) (gets r) ->
          exists module,
            In (module, "GET", pattern, handle) table_rows /\ module <> u)
    /\ forall (StatusConfig RateLimitConfig : Type)
              (w : @World StatusConfig RateLimitConfig),
        or_panic (makeRouter config') w = (Ret r, w).
Proof.
  intros Hunknown Hwl Hwl'.
  exists (router_of (enabled_routes (l1 ++ l2))).
  assert (Hsame : makeRouter config'
                  = Some (router_of (enabled_routes (l1 ++ l2)))).
  { rewrite makeRouter_enabled_routes, Hwl'. do 2 f_equal.
    apply enabled_routes_agree. intros module Hknown.
    apply isModuleEnabled_insert_other. intros ->. contradiction. }
  split; [exact Hsame|].
  split; [now rewrite makeRouter_enabled_routes, Hwl|].
  split.
  - intros pattern handle Hin. rewrite gets_router_of in Hin.
    apply In_enabled_routes in Hin as (module & Hrow & _).
    exists module. split; [exact Hrow|]. intros ->. apply Hunknown.
    unfold known_modules, table_rows in *.
    apply in_flat_map in Hrow as (g & Hg & Hin).
    apply in_map_iff in Hin as (rt & Heq & _). injection Heq as <- _ _.
    apply in_map. exact Hg.
  - intros StatusConfig RateLimitConfig w. now rewrite Hsame.
Qed.

(** A concrete case of [makeRouter_unknown_module]: the name "Status",
    with a capital, between two known names. *)
Lemma makeRouter_unknown_module_witness :
  exists r,
    makeRouter (endpoints.mkServerConfig []
                  ["symbols"; "Status"; "routes_dump"] false "" "") = Some r
    /\ makeRouter (endpoints.mkServerConfig []
                     ["symbols"; "routes_dump"] false "" "") = Some r
    /\ map fst (gets r) = ["/symbols"; "/routes/dump"].
Proof.
  destruct (makeRouter_unknown_module
              (endpoints.mkServerConfig [] ["symbols"; "routes_dump"] false "" "")
              (endpoints.mkServerConfig []
                 ["symbols"; "Status"; "routes_dump"] false "" "")
              "Status" ["symbols"] ["routes_dump"])
    as (r & Hr' & Hr & _).
  - decide_In.
  - reflexivity.
  - reflexivity.
  - exists r. split; [exact Hr'|]. split; [exact Hr|].
    vm_compute in Hr. injection Hr as <-. reflexivity.
Defined.

(* ===================================================================== *)
(** * Properties of the access-log adapter                               *)
(* ===================================================================== *)

(** C3: for every byte sequence [p] and whatever the underlying logger
    does, [Write] returns the length of [p] and no error, and its whole
    effect is one call of the logger's [Print] with the string of the bytes
    of [p], unchanged; a logger that records its calls records that one
    call. *)
Theorem Write_forwards_once
  {W : Type} (Logger_Print : log.Logger -> string -> W -> W)
  (m : MyLogger) (p : list Byte.byte) (w : W)
  (calls : list (log.Logger * string)) :
  fst (Write Logger_Print m p w) = (Z.of_nat (length p), None)
  /\ snd (Write Logger_Print m p w)
     = Logger_Print (logger m) (string_of_bytes p) w
  /\ list_byte_of_string (string_of_bytes p) = p
  /\ Write recording_Print m p calls
     = ((Z.of_nat (length p), None),
        calls ++ [(logger m, string_of_bytes p)]).
Proof.
  repeat split. apply list_byte_of_string_of_list_byte.
Qed.

(* ===================================================================== *)
(** * Properties of the startup sequence                                 *)
(* ===================================================================== *)

Section Startup_facts.
Context {StatusConfig RateLimitConfig : Type}.
Local Abbreviation Config := (@Config StatusConfig RateLimitConfig).
Local Abbreviation Env := (@Env StatusConfig RateLimitConfig).
Local Abbreviation World := (@World StatusConfig RateLimitConfig).
Local Abbreviation Event := (@Event StatusConfig RateLimitConfig).
Local Abbreviation Value := (@Value StatusConfig RateLimitConfig).
Implicit Types (env : Env) (conf : Config) (flags : Flags) (w : World)
  (events : list Event) (g : gmap string Value).

Lemma replay_app events1 events2 g :
  replay (events1 ++ events2) g = replay events2 (replay events1 g).
Proof. apply fold_left_app. Qed.

Lemma extend_extend w events1 events2 :
  extend (extend w events1) events2 = extend w (events1 ++ events2).
Proof.
  unfold extend. simpl. now rewrite replay_app, app_assoc.
Qed.

Lemma extend_nil w : extend w [] = w.
Proof. destruct w. unfold extend. simpl. now rewrite app_nil_r. Qed.

(** A variable that no event of a trace assigns keeps its value. *)
Lemma replay_untouched var events : forall g,
  existsb (is_store_of var) events = false ->
  replay events g !! var = g !! var.
Proof.
  induction events as [|e events IH]; intros g Hnone; [reflexivity|].
  simpl in Hnone. apply orb_false_elim in Hnone as [He Hrest].
  simpl. rewrite (IH _ Hrest).
  destruct e; try reflexivity.
  simpl in He. apply lookup_insert_ne.
  intros ->. now rewrite String.eqb_refl in He.
Qed.

Lemma for_range_Println (l : list string) w :
  for_range l (fun m => log_Println [AStr "       -"; AStr m]) w
  = (Ret tt, extend w (map (fun m => EvPrintln [AStr "       -"; AStr m]) l)).
Proof.
  revert w. induction l as [|m l IH]; intros w.
  - simpl. now rewrite extend_nil.
  - simpl. unfold mbind, Proc_bind, proc_bind. simpl.
    rewrite IH. unfold extend. simpl. now rewrite <- app_assoc.
Qed.

Lemma PrintServiceInfo_trace conf birdConf w :
  PrintServiceInfo conf birdConf w
  = (Ret tt, extend w (service_info conf birdConf)).
Proof.
  unfold PrintServiceInfo, service_info.
  unfold mbind at 1 2 3 4 5 6, Proc_bind, proc_bind.
  destruct (endpoints.AllowFrom (Server conf)) eqn:E; simpl.
  all: unfold mbind, Proc_bind, proc_bind; rewrite for_range_Println.
  all: unfold extend; simpl; rewrite replay_app; simpl.
  all: unfold log_Println, emit; simpl.
  all: now rewrite <- ?app_assoc.
Qed.

(** Unfolding of the sequencing of the process. *)
Ltac proc_step :=
  unfold mbind, Proc_bind, proc_bind, mret, Proc_ret, proc_ret,
    emit, store, os_Exit, or_panic, extend; simpl.

Lemma main_load_cases env w :
  main_load env w
  = match cmdline env with
    | inr code => (Exit code, extend w [EvFlagParse])
    | inl flags =>
        match LoadConfigs env [configfile flags] with
        | inr err =>
            (Exit 1,
             extend w (load_trace flags
                       ++ [EvFatal [AStr "Loading birdwatcher configuration failed:";
                                    AErr err]]))
        | inl conf =>
            if tls_gate_fails conf then
              (Exit 1,
               extend w (load_trace flags ++ [EvFatalln [AStr msg_tls_after_load]]))
            else (Ret (flags, conf), extend w (load_trace flags))
        end
    end.
Proof.
  unfold main_load, flag_Parse, call_LoadConfigs, log_Fatal, log_Fatalln,
    tls_gate_fails.
  proc_step.
  destruct (cmdline env) as [flags|code]; simpl; [|reflexivity].
  destruct (LoadConfigs env [configfile flags]) as [conf|err]; simpl.
  - destruct (endpoints.EnableTLS (Server conf)); simpl.
    + destruct (tls_material_missing (Server conf)); simpl;
        now rewrite <- ?app_assoc.
    + now rewrite <- ?app_assoc.
  - now rewrite <- ?app_assoc.
Qed.

Lemma bind_Ret {A B} (m : Proc A) (k : A -> Proc B) w (a : A) w' :
  m w = (Ret a, w') -> (m ≫= k) w = k a w'.
Proof.
  intros Hm. unfold mbind, Proc_bind, proc_bind. now rewrite Hm.
Qed.

Lemma store_extend var (v : Value) w :
  store var v w = (Ret tt, extend w [EvStore var v]).
Proof. reflexivity. Qed.

Lemma InstallRateLimitReset_extend w :
  bird_InstallRateLimitReset w = (Ret tt, extend w [EvInstallRateLimitReset]).
Proof. reflexivity. Qed.

Lemma SetPrefix_extend prefix w :
  log_SetPrefix prefix w = (Ret tt, extend w [EvSetPrefix prefix]).
Proof. reflexivity. Qed.

(** Lines 148 to 152: the choice of the backend. *)
Lemma select_extend flags conf w :
  (if bird6 flags then
     store "bird.IPVersion" (VString "6") ;; mret (Bird6 conf)
   else mret (Bird conf)) w
  = (Ret (selected flags conf),
     extend w (if bird6 flags then [EvStore "bird.IPVersion" (VString "6")]
               else [])).
Proof.
  unfold selected. destruct (bird6 flags); [reflexivity|].
  now rewrite extend_nil.
Qed.

(** One step of a sequence whose first action is known. *)
Ltac proc_next :=
  erewrite bind_Ret;
  [|first [ apply store_extend | apply InstallRateLimitReset_extend
          | apply SetPrefix_extend | apply select_extend
          | apply PrintServiceInfo_trace ]].

(** [main_configure] always goes through, whatever the configuration. *)
Lemma main_configure_trace env flags conf w :
  main_configure env flags conf w
  = (Ret (selected flags conf, access_handler env conf),
     extend w (configure_trace env flags conf)).
Proof.
  unfold main_configure. rewrite makeRouter_enabled_routes.
  do 9 proc_next.
  erewrite bind_Ret by reflexivity.
  proc_next.
  unfold mret, Proc_ret, proc_ret, access_handler, configure_trace.
  rewrite !extend_extend. reflexivity.
Qed.

Lemma main_serve_cases env conf birdConf handler w :
  main_serve env conf birdConf handler w
  = (serve_result env conf, extend w (serve_trace env conf birdConf handler)).
Proof.
  unfold main_serve, serve_result, serve_trace, tls_gate_fails,
    http_ListenAndServe, http_ListenAndServeTLS, blocking, log_Fatal,
    log_Fatalln, listener_result, listener_end.
  destruct (endpoints.EnableTLS (Server conf)); simpl.
  - destruct (tls_material_missing (Server conf)); proc_step; [reflexivity|].
    destruct (serve_error env); simpl; now rewrite <- ?app_assoc.
  - proc_step. destruct (serve_error env); simpl; now rewrite <- ?app_assoc.
Qed.

(** The whole run, case by case. *)
Lemma run_cases env init :
  run env init
  = match cmdline env with
    | inr code => (Exit code, extend (mkWorld init []) [EvFlagParse])
    | inl flags =>
        match LoadConfigs env [configfile flags] with
        | inr err =>
            (Exit 1,
             extend (mkWorld init [])
               (load_trace flags
                ++ [EvFatal [AStr "Loading birdwatcher configuration failed:";
                             AErr err]]))
        | inl conf =>
            if tls_gate_fails conf then
              (Exit 1,
               extend (mkWorld init [])
                 (load_trace flags ++ [EvFatalln [AStr msg_tls_after_load]]))
            else
              (listener_result env,
               extend (mkWorld init [])
                 (load_trace flags
                  ++ configure_trace env flags conf
                  ++ serve_trace env conf (selected flags conf)
                       (access_handler env conf)))
        end
    end.
Proof.
  unfold run, main. unfold mbind at 1 2, Proc_bind, proc_bind.
  rewrite main_load_cases.
  destruct (cmdline env) as [flags|code]; [|reflexivity].
  destruct (LoadConfigs env [configfile flags]) as [conf|err]; [|reflexivity].
  destruct (tls_gate_fails conf) eqn:Hgate; [reflexivity|].
  rewrite main_configure_trace, main_serve_cases.
  unfold serve_result. rewrite Hgate.
  now rewrite !extend_extend.
Qed.

Lemma length_zero_iff (s : string) :
  Nat.eqb (String.length s) 0 = true <-> s = "".
Proof.
  destruct s; simpl; split; intros Heq; try reflexivity; discriminate.
Qed.

(** The gate fails exactly when TLS is enabled and the certificate path
    or the key path is the empty string. *)
Lemma tls_gate_fails_iff conf :
  tls_gate_fails conf = true
  <-> endpoints.EnableTLS (Server conf) = true
      /\ (endpoints.Crt (Server conf) = "" \/ endpoints.Key (Server conf) = "").
Proof.
  unfold tls_gate_fails, tls_material_missing.
  now rewrite andb_true_iff, orb_true_iff, !length_zero_iff.
Qed.

Lemma tls_gate_passes_iff conf :
  tls_gate_fails conf = false
  <-> (endpoints.EnableTLS (Server conf) = true ->
       endpoints.Crt (Server conf) <> "" /\ endpoints.Key (Server conf) <> "").
Proof.
  rewrite <- not_true_iff_false, tls_gate_fails_iff.
  destruct (endpoints.EnableTLS (Server conf)),
    (String.eqb_spec (endpoints.Crt (Server conf)) ""),
    (String.eqb_spec (endpoints.Key (Server conf)) ""); intuition congruence.
Qed.

(** [PrintServiceInfo] only prints. *)
Lemma service_info_Println conf birdConf :
  Forall (fun e => exists args, e = EvPrintln args) (service_info conf birdConf).
Proof.
  unfold service_info. rewrite !Forall_app. repeat split.
  - repeat (constructor; [eauto|]); [|repeat constructor; eauto].
    destruct (endpoints.AllowFrom (Server conf)); eauto.
  - apply List.Forall_forall. intros e Hin.
    apply in_map_iff in Hin as (m & <- & _). eauto.
  - repeat constructor. eauto.
Qed.

Lemma Println_existsb (f : Event -> bool) events :
  (forall args, f (EvPrintln args) = false) ->
  Forall (fun e => exists args, e = EvPrintln args) events ->
  existsb f events = false.
Proof.
  intros Hf. induction 1 as [|e events [args ->] _ IH]; [reflexivity|].
  simpl. now rewrite Hf, IH.
Qed.

Lemma Println_replay events g :
  Forall (fun e => exists args, e = EvPrintln args) events ->
  replay events g = g.
Proof.
  induction 1 as [|e events [args ->] _ IH]; [reflexivity|exact IH].
Qed.

Lemma Println_bind_addr events :
  Forall (fun e => exists args, e = EvPrintln args) events ->
  omap bind_addr events = [].
Proof.
  induction 1 as [|e events [args ->] _ IH]; [reflexivity|exact IH].
Qed.

Lemma configure_trace_no_bind env flags conf :
  existsb is_bind (configure_trace env flags conf) = false
  /\ omap bind_addr (configure_trace env flags conf) = [].
Proof.
  unfold configure_trace. rewrite !existsb_app, !omap_app.
  rewrite (Println_existsb is_bind (service_info conf (selected flags conf)))
    by (reflexivity || apply service_info_Println).
  rewrite (Println_bind_addr (service_info conf (selected flags conf)))
    by apply service_info_Println.
  destruct (bird6 flags); split; reflexivity.
Qed.

Lemma serve_trace_no_store var env conf birdConf handler :
  existsb (is_store_of var) (serve_trace env conf birdConf handler) = false.
Proof.
  unfold serve_trace, listener_end.
  destruct (endpoints.EnableTLS (Server conf)),
    (tls_material_missing (Server conf)), (serve_error env); reflexivity.
Qed.

(** When the gate passes, the listener is bound first, at the address of
    the backend configuration it is given. *)
Lemma serve_trace_bind env conf birdConf handler :
  tls_gate_fails conf = false ->
  exists bind,
    is_bind bind = true
    /\ bind_addr bind = Some (bird.Listen birdConf)
    /\ serve_trace env conf birdConf handler = bind :: listener_end env.
Proof.
  unfold tls_gate_fails, serve_trace.
  destruct (endpoints.EnableTLS (Server conf)); simpl.
  - intros ->.
    exists (EvListenAndServeTLS (bird.Listen birdConf) (endpoints.Crt (Server conf))
              (endpoints.Key (Server conf)) handler).
    repeat split.
  - intros _. exists (EvListenAndServe (bird.Listen birdConf) handler).
    repeat split.
Qed.

Lemma listener_end_no_bind env :
  existsb is_bind (listener_end env) = false
  /\ omap bind_addr (listener_end env) = [].
Proof. unfold listener_end. destruct (serve_error env); split; reflexivity. Qed.

(** The package variables at the end are those of the start with the
    assignments of the trace. *)
Lemma run_globals env init :
  globals (snd (run env init)) = replay (trace (snd (run env init))) init.
Proof.
  rewrite run_cases.
  destruct (cmdline env) as [flags|code]; [|reflexivity].
  destruct (LoadConfigs env [configfile flags]) as [conf|err]; [|reflexivity].
  destruct (tls_gate_fails conf); reflexivity.
Qed.

(** C2: when the loaded configuration enables TLS and the certificate
    path or the key path is the empty string, the process logs the fatal
    message of the first check right after the load and exits with status
    1; no listener is bound. *)
Theorem tls_missing_aborts_before_bind env init flags conf :
  cmdline env = inl flags ->
  LoadConfigs env [configfile flags] = inl conf ->
  endpoints.EnableTLS (Server conf) = true ->
  endpoints.Crt (Server conf) = "" \/ endpoints.Key (Server conf) = "" ->
  fst (run env init) = Exit 1
  /\ trace (snd (run env init))
     = [ EvFlagParse;
         EvStore "bird.WorkerPoolSize" (VInt (workerPoolSize flags));
         EvLoadConfigs [configfile flags];
         EvFatalln [AStr msg_tls_after_load] ]
  /\ existsb is_bind (trace (snd (run env init))) = false.
Proof.
  intros Hflags Hload Htls Hempty.
  assert (Hgate : tls_gate_fails conf = true) by now apply tls_gate_fails_iff.
  rewrite run_cases, Hflags, Hload, Hgate. repeat split.
Qed.

(** C6: when the startup passes the first gate, the flag -6 selects the
    backend: set, [bird.ClientConf] receives [conf.Bird6], [bird.IPVersion]
    is "6", and the listener is bound at [conf.Bird6.Listen]; not set,
    [bird.ClientConf] receives [conf.Bird] and the listener is bound at
    [conf.Bird.Listen].  In both cases there is exactly one bind. *)
Theorem backend_selection env init flags conf :
  cmdline env = inl flags ->
  LoadConfigs env [configfile flags] = inl conf ->
  tls_gate_fails conf = false ->
  (bird6 flags = true ->
   globals (snd (run env init)) !! "bird.ClientConf"
   = Some (VBirdConfig (Bird6 conf))
   /\ globals (snd (run env init)) !! "bird.IPVersion" = Some (VString "6")
   /\ omap bind_addr (trace (snd (run env init))) = [bird.Listen (Bird6 conf)])
  /\ (bird6 flags = false ->
      globals (snd (run env init)) !! "bird.ClientConf"
      = Some (VBirdConfig (Bird conf))
      /\ omap bind_addr (trace (snd (run env init))) = [bird.Listen (Bird conf)]).
Proof.
  intros Hflags Hload Hgate.
  rewrite run_cases, Hflags, Hload, Hgate.
  destruct (serve_trace_bind env conf (selected flags conf)
              (access_handler env conf) Hgate) as (bind & _ & Haddr & Hserve).
  assert (Hbinds : omap bind_addr
                     (load_trace flags ++ configure_trace env flags conf
                      ++ serve_trace env conf (selected flags conf)
                           (access_handler env conf))
                   = [bird.Listen (selected flags conf)]).
  { rewrite !omap_app, (proj2 (configure_trace_no_bind env flags conf)), Hserve.
    simpl. rewrite Haddr. f_equal. apply listener_end_no_bind. }
  assert (Hvar : forall var,
             replay (load_trace flags ++ configure_trace env flags conf
                     ++ serve_trace env conf (selected flags conf)
                          (access_handler env conf)) init !! var
             = replay (configure_trace env flags conf)
                      (replay (load_trace flags) init) !! var).
  { intros var. rewrite !replay_app.
    apply replay_untouched, serve_trace_no_store. }
  cbn [snd extend globals trace app]. rewrite Hbinds, !Hvar.
  unfold configure_trace. rewrite !replay_app.
  rewrite (Println_replay (service_info conf (selected flags conf)))
    by apply service_info_Println.
  unfold selected. split; intros Hsix; rewrite Hsix; simpl.
  - rewrite !lookup_insert_ne, lookup_insert_eq by discriminate.
    now rewrite !lookup_insert_ne, lookup_insert_eq by discriminate.
  - now rewrite !lookup_insert_ne, lookup_insert_eq by discriminate.
Qed.

(** C10: when the flag -6 is not set, no event of the run assigns
    [bird.IPVersion], however the run ends, and the variable has at the end
    the value that it had at the start. *)
Theorem primary_leaves_tag env init flags :
  cmdline env = inl flags ->
  bird6 flags = false ->
  existsb (is_store_of "bird.IPVersion") (trace (snd (run env init))) = false
  /\ globals (snd (run env init)) !! "bird.IPVersion" = init !! "bird.IPVersion".
Proof.
  intros Hflags Hfour.
  assert (Hnone : existsb (is_store_of "bird.IPVersion")
                          (trace (snd (run env init))) = false).
  { rewrite run_cases, Hflags.
    destruct (LoadConfigs env [configfile flags]) as [conf|err]; [|reflexivity].
    destruct (tls_gate_fails conf); [reflexivity|].
    cbn [snd extend trace app]. rewrite !existsb_app, serve_trace_no_store.
    unfold configure_trace. rewrite Hfour, !existsb_app.
    rewrite (Println_existsb _ (service_info conf (selected flags conf)))
      by (reflexivity || apply service_info_Println).
    reflexivity. }
  split; [exact Hnone|].
  rewrite run_globals. now apply replay_untouched.
Qed.

(** The three blocks of [main] and the TLS material, block by block.
    With incomplete material [main_load] ends in the fatal message of the
    first check, the event after the load; with incomplete material
    [main_serve] ends in the fatal message of the second check and binds
    nothing, and otherwise its first event is the bind; [main_configure]
    goes through whatever the material, and binds nothing; and a run that
    binds a listener has loaded a configuration whose material is
    complete.  (In a run of [main] the second check finds nothing that the
    first has not found: see [second_check_never_fires].) *)
Theorem tls_validation_points :
  (forall env flags conf w,
      cmdline env = inl flags ->
      LoadConfigs env [configfile flags] = inl conf ->
      tls_gate_fails conf = true ->
      main_load env w
      = (Exit 1,
         extend w [ EvFlagParse;
                    EvStore "bird.WorkerPoolSize" (VInt (workerPoolSize flags));
                    EvLoadConfigs [configfile flags];
                    EvFatalln [AStr msg_tls_after_load] ]))
  /\ (forall env conf birdConf handler w,
        tls_gate_fails conf = true ->
        main_serve env conf birdConf handler w
        = (Exit 1, extend w [EvFatalln [AStr msg_tls_before_bind]]))
  /\ (forall env conf birdConf handler w,
        tls_gate_fails conf = false ->
        exists bind rest,
          is_bind bind = true
          /\ trace (snd (main_serve env conf birdConf handler w))
             = trace w ++ bind :: rest)
  /\ (forall env flags conf w,
        exists out events,
          main_configure env flags conf w = (Ret out, extend w events)
          /\ existsb is_bind events = false)
  /\ (forall env init,
        existsb is_bind (trace (snd (run env init))) = true ->
        exists flags conf,
          cmdline env = inl flags
          /\ LoadConfigs env [configfile flags] = inl conf
          /\ (endpoints.EnableTLS (Server conf) = true ->
              endpoints.Crt (Server conf) <> ""
              /\ endpoints.Key (Server conf) <> "")).
Proof.
  repeat apply conj.
  - intros env flags conf w Hflags Hload Hgate.
    now rewrite main_load_cases, Hflags, Hload, Hgate.
  - intros env conf birdConf handler w Hgate.
    rewrite main_serve_cases. unfold serve_result, serve_trace.
    rewrite Hgate. apply andb_prop in Hgate as [-> ->]. reflexivity.
  - intros env conf birdConf handler w Hgate.
    destruct (serve_trace_bind env conf birdConf handler Hgate)
      as (bind & Hbind & _ & Hserve).
    exists bind, (listener_end env). split; [exact Hbind|].
    rewrite main_serve_cases, Hserve. reflexivity.
  - intros env flags conf w.
    exists (selected flags conf, access_handler env conf),
      (configure_trace env flags conf).
    split; [apply main_configure_trace|apply configure_trace_no_bind].
  - intros env init Hbind. rewrite run_cases in Hbind.
    destruct (cmdline env) as [flags|code]; [|discriminate].
    destruct (LoadConfigs env [configfile flags]) as [conf|err] eqn:Hload;
      [|discriminate].
    destruct (tls_gate_fails conf) eqn:Hgate; [discriminate|].
    exists flags, conf. split; [reflexivity|]. split; [exact Hload|].
    now apply tls_gate_passes_iff.
Qed.

End Startup_facts.

(** A concrete case of [tls_missing_aborts_before_bind]: TLS enabled with
    a key and no certificate. *)
Lemma tls_missing_aborts_before_bind_witness :
  fst (run (demo_env false (demo_conf true "" "server.key") None) ∅) = Exit 1
  /\ existsb is_bind
       (trace (snd (run (demo_env false (demo_conf true "" "server.key") None) ∅)))
     = false.
Proof.
  destruct (tls_missing_aborts_before_bind
              (demo_env false (demo_conf true "" "server.key") None) ∅
              (demo_flags false) (demo_conf true "" "server.key")
              eq_refl eq_refl eq_refl (or_introl eq_refl))
    as (Hexit & _ & Hnobind).
  split; [exact Hexit|exact Hnobind].
Defined.

(** A concrete case of [backend_selection]: with -6, the second backend. *)
Lemma backend_selection_witness :
  globals (snd (run (demo_env true (demo_conf false "" "") None) ∅))
    !! "bird.ClientConf"
  = Some (VBirdConfig (bird.mkBirdConfig "0.0.0.0:29186" "birdc6" 5))
  /\ globals (snd (run (demo_env true (demo_conf false "" "") None) ∅))
       !! "bird.IPVersion"
     = Some (VString "6")
  /\ omap bind_addr
       (trace (snd (run (demo_env true (demo_conf false "" "") None) ∅)))
     = ["0.0.0.0:29186"].
Proof.
  exact (proj1 (backend_selection
                  (demo_env true (demo_conf false "" "") None) ∅
                  (demo_flags true) (demo_conf false "" "")
                  eq_refl eq_refl eq_refl) eq_refl).
Defined.

(** A concrete case of [primary_leaves_tag]: without -6, a tag that the
    collaborator set to "4" is still "4" when the listener fails. *)
Lemma primary_leaves_tag_witness :
  existsb (is_store_of "bird.IPVersion")
    (trace (snd (run (demo_env false (demo_conf false "" "") (Some "bind: in use"))
                     {["bird.IPVersion" := VString "4"]})))
  = false
  /\ globals (snd (run (demo_env false (demo_conf false "" "") (Some "bind: in use"))
                       {["bird.IPVersion" := VString "4"]}))
       !! "bird.IPVersion"
     = Some (VString "4").
Proof.
  exact (primary_leaves_tag
           (demo_env false (demo_conf false "" "") (Some "bind: in use"))
           {["bird.IPVersion" := VString "4"]} (demo_flags false)
           eq_refl eq_refl).
Defined.

(** The whole run of the process on the example, TLS off, without -6,
    the listener failing. *)
Example run_demo :
  run (demo_env false (demo_conf false "" "") (Some "bind: in use")) ∅
  = (Exit 1,
     mkWorld
       (replay
          [ EvStore "bird.WorkerPoolSize" (VInt 8);
            EvStore "endpoints.VERSION" (VString "1.11.2");
            EvStore "bird.ClientConf"
              (VBirdConfig (bird.mkBirdConfig "0.0.0.0:29184" "birdc" 5));
            EvStore "bird.StatusConf" (VStatusConfig tt);
            EvStore "bird.RateLimitConf.Conf" (VRateLimitConfig tt);
            EvStore "bird.ParserConf" (VParserConfig (bird.mkParserConfig false));
            EvStore "endpoints.Conf"
              (VServerConfig (Server (demo_conf false "" ""))) ] ∅)
       [ EvFlagParse;
         EvStore "bird.WorkerPoolSize" (VInt 8);
         EvLoadConfigs ["etc/birdwatcher/birdwatcher.conf"];
         EvStore "endpoints.VERSION" (VString "1.11.2");
         EvInstallRateLimitReset;
         EvPrintln [AStr "Starting Birdwatcher"];
         EvPrintln [AStr "            Using:"; AStr "birdc"];
         EvPrintln [AStr "           Listen:"; AStr "0.0.0.0:29184"];
         EvPrintln [AStr "        Cache TTL:"; AInt 5];
         EvPrintln [AStr "        AllowFrom: ALL"];
         EvPrintln [AStr "   ModulesEnabled:"];
         EvPrintln [AStr "       -"; AStr "status"];
         EvPrintln [AStr "       -"; AStr "routes_peer"];
         EvPrintln [AStr "   Per Peer Tables:"; ABool false];
         EvStore "bird.ClientConf"
           (VBirdConfig (bird.mkBirdConfig "0.0.0.0:29184" "birdc" 5));
         EvStore "bird.StatusConf" (VStatusConfig tt);
         EvStore "bird.RateLimitConf.Conf" (VRateLimitConfig tt);
         EvStore "bird.ParserConf" (VParserConfig (bird.mkParserConfig false));
         EvStore "endpoints.Conf" (VServerConfig (Server (demo_conf false "" "")));
         EvSetPrefix "2026/01/02 03:04:05";
         EvListenAndServe "0.0.0.0:29184"
           (LoggingHandler
              (mkMyLogger
                 (log.New log.Stdout "2026/01/02 03:04:05 QUERY: " 0))
              (httprouter.mkRouter
                 (<["GET" := [ ("/version", endpoints.Version "1.11.2");
                               ("/status", endpoints.Endpoint endpoints.Status);
                               ("/routes/peer",
                                endpoints.Endpoint endpoints.RoutesPeer) ]]> ∅)));
         EvFatal [AErr "bind: in use"] ]).
Proof. vm_compute. reflexivity. Qed.

(** A concrete case of [tls_validation_points]: TLS enabled with neither
    certificate nor key. *)
Lemma tls_validation_points_witness :
  main_load (demo_env false (demo_conf true "" "") None) (mkWorld ∅ [])
  = (Exit 1,
     extend (mkWorld ∅ [])
       [ EvFlagParse;
         EvStore "bird.WorkerPoolSize" (VInt 8);
         EvLoadConfigs ["etc/birdwatcher/birdwatcher.conf"];
         EvFatalln [AStr msg_tls_after_load] ])
  /\ main_serve (demo_env false (demo_conf true "" "") None)
       (demo_conf true "" "") (bird.mkBirdConfig "0.0.0.0:29184" "birdc" 5)
       (access_handler (demo_env false (demo_conf true "" "") None)
          (demo_conf true "" ""))
       (mkWorld ∅ [])
     = (Exit 1, extend (mkWorld ∅ []) [EvFatalln [AStr msg_tls_before_bind]]).
Proof.
  destruct (@tls_validation_points unit unit) as (Hload & Hserve & _).
  split.
  - exact (Hload (demo_env false (demo_conf true "" "") None) (demo_flags false)
             (demo_conf true "" "") (mkWorld ∅ []) eq_refl eq_refl eq_refl).
  - exact (Hserve (demo_env false (demo_conf true "" "") None)
             (demo_conf true "" "") _ _ (mkWorld ∅ []) eq_refl).
Defined.

(* ===================================================================== *)
(** * Further properties of the route builder                            *)
(* ===================================================================== *)

Section Whitelist_algebra.
Implicit Types (config : endpoints.ServerConfig) (wl : list string).

Lemma find_route_Some_inv {H} (root : list (httprouter.Route H)) path handle ps :
  httprouter.find_route root path = Some (handle, ps) ->
  exists pattern,
    In (pattern, handle) root /\ httprouter.match_path pattern path = Some ps.
Proof.
  induction root as [|[pattern0 handle0] root IH]; simpl; [discriminate|].
  destruct (httprouter.match_path pattern0 path) as [ps0|] eqn:E0.
  - intros Heq. injection Heq as -> ->. exists pattern0. auto.
  - intros Hfind. destruct (IH Hfind) as (pattern & Hin & Hm).
    exists pattern. auto.
Qed.

Lemma known_modules_table module method pattern handle :
  In (module, method, pattern, handle) table_rows -> In module known_modules.
Proof.
  unfold known_modules, table_rows. intros Hrow.
  apply in_flat_map in Hrow as (g & Hg & Hin).
  apply in_map_iff in Hin as (rt & Heq & _). injection Heq as <- _ _ _.
  apply in_map. exact Hg.
Qed.

End Whitelist_algebra.

(** X1: a whitelist is scanned to its end: a module is enabled by two
    whitelists put one after the other exactly when one of them enables
    it, and no module is enabled by the empty whitelist. *)
Theorem isModuleEnabled_app (module : string) (wl1 wl2 : list string) :
  isModuleEnabled module (wl1 ++ wl2)
  = isModuleEnabled module wl1 || isModuleEnabled module wl2.
Proof.
  induction wl1 as [|enabled wl1 IH]; simpl; [reflexivity|].
  destruct (String.eqb enabled module); [reflexivity|exact IH].
Qed.

(** X2: two configurations whose whitelists have the same members, in
    whatever order and number, and whatever their other fields, give the
    same router. *)
Theorem makeRouter_same_members (config config' : endpoints.ServerConfig) :
  (forall m, In m (endpoints.ModulesEnabled config)
             <-> In m (endpoints.ModulesEnabled config')) ->
  makeRouter config = makeRouter config'.
Proof.
  intros Hsame. rewrite !makeRouter_enabled_routes.
  now rewrite (enabled_routes_ext _ _ Hsame).
Qed.

(** A concrete case of [makeRouter_same_members]: the whitelist reversed,
    TLS switched on. *)
Lemma makeRouter_same_members_witness :
  makeRouter (endpoints.mkServerConfig [] ["status"; "symbols"] false "" "")
  = makeRouter (endpoints.mkServerConfig ["10.0.0.1"] ["symbols"; "status"]
                  true "c" "k").
Proof.
  apply makeRouter_same_members. simpl. intros m. tauto.
Defined.

(** X3: a whitelist that holds none of the known module names, the empty
    whitelist among them, gives a router without routes: every request,
    of whatever method and path, is answered not-found. *)
Theorem makeRouter_nothing_enabled (config : endpoints.ServerConfig) :
  (forall m, In m (endpoints.ModulesEnabled config) -> ~ In m known_modules) ->
  exists r,
    makeRouter config = Some r
    /\ gets r = []
    /\ forall method path, httprouter.ServeHTTP r method path = httprouter.NotFound.
Proof.
  intros Hnone.
  assert (Hempty : enabled_routes (endpoints.ModulesEnabled config) = []).
  { destruct (enabled_routes (endpoints.ModulesEnabled config))
      as [|[pattern handle] routes] eqn:E; [reflexivity|].
    assert (Hin : In (pattern, handle)
                     (enabled_routes (endpoints.ModulesEnabled config)))
      by (rewrite E; now left).
    apply In_enabled_routes in Hin as (module & Hrow & Hen).
    apply isModuleEnabled_true_In in Hen.
    apply known_modules_table in Hrow. now destruct (Hnone module). }
  exists httprouter.New. rewrite makeRouter_enabled_routes, Hempty.
  split; [reflexivity|]. split; [reflexivity|].
  intros method path. unfold httprouter.ServeHTTP, httprouter.Lookup. simpl.
  now rewrite lookup_empty.
Qed.

(** A concrete case of [makeRouter_nothing_enabled]: the empty whitelist. *)
Lemma makeRouter_nothing_enabled_witness :
  exists r,
    makeRouter (endpoints.mkServerConfig [] [] false "" "") = Some r
    /\ httprouter.ServeHTTP r "GET" "/status" = httprouter.NotFound.
Proof.
  destruct (makeRouter_nothing_enabled
              (endpoints.mkServerConfig [] [] false "" ""))
    as (r & Hr & _ & Hserve).
  - simpl. tauto.
  - exists r. split; [exact Hr|apply Hserve].
Defined.

(** X4: enabling more modules takes nothing away: when every member of
    one whitelist is a member of another, every request that the router
    of the first dispatches is dispatched by the router of the second to
    the same handler with the same parameters. *)
Theorem makeRouter_monotone (config config' : endpoints.ServerConfig) :
  (forall m, In m (endpoints.ModulesEnabled config)
             -> In m (endpoints.ModulesEnabled config')) ->
  exists r r',
    makeRouter config = Some r
    /\ makeRouter config' = Some r'
    /\ forall path handle ps,
        httprouter.ServeHTTP r "GET" path = httprouter.Dispatched handle ps ->
        httprouter.ServeHTTP r' "GET" path = httprouter.Dispatched handle ps.
Proof.
  intros Hincl.
  exists (router_of (enabled_routes (endpoints.ModulesEnabled config))),
    (router_of (enabled_routes (endpoints.ModulesEnabled config'))).
  rewrite !makeRouter_enabled_routes. repeat split.
  intros path handle ps. unfold httprouter.ServeHTTP.
  rewrite !Lookup_router_of.
  destruct (httprouter.find_route
              (enabled_routes (endpoints.ModulesEnabled config)) path)
    as [[handle0 ps0]|] eqn:Hfind; [|discriminate].
  intros Heq. injection Heq as -> ->.
  apply find_route_Some_inv in Hfind as (pattern & Hin & Hmatch).
  apply In_enabled_routes in Hin as (module & Hrow & Hen).
  rewrite (find_route_only _ path pattern handle ps); [reflexivity| |exact Hmatch|].
  - apply In_enabled_routes. exists module. split; [exact Hrow|].
    apply isModuleEnabled_In_true, Hincl, isModuleEnabled_true_In, Hen.
  - intros pattern' handle' ps' Hin' Hmatch'.
    apply In_enabled_routes in Hin' as (module' & Hrow' & _).
    pose proof (table_rows_same_path _ _ path ps' ps Hrow' Hrow Hmatch' Hmatch)
      as Heq.
    congruence.
Qed.

(** A concrete case of [makeRouter_monotone]: "symbols" added to
    "status". *)
Lemma makeRouter_monotone_witness :
  exists r',
    makeRouter (endpoints.mkServerConfig [] ["symbols"; "status"] false "" "")
    = Some r'
    /\ httprouter.ServeHTTP r' "GET" "/version"
       = httprouter.Dispatched (endpoints.Version "1.11.2") [].
Proof.
  destruct (makeRouter_monotone
              (endpoints.mkServerConfig [] ["status"] false "" "")
              (endpoints.mkServerConfig [] ["symbols"; "status"] false "" ""))
    as (r & r' & Hr & Hr' & Hkeep).
  - simpl. tauto.
  - exists r'. split; [exact Hr'|]. apply Hkeep.
    vm_compute in Hr. injection Hr as <-. reflexivity.
Defined.

(** X5: [makeRouter] registers handlers under GET and under no other
    method, whatever the whitelist. *)
Theorem makeRouter_only_GET (config : endpoints.ServerConfig) :
  exists r,
    makeRouter config = Some r
    /\ forall method path,
        String.eqb method "GET" = false ->
        httprouter.Lookup r method path = None.
Proof.
  exists (router_of (enabled_routes (endpoints.ModulesEnabled config))).
  split; [apply makeRouter_enabled_routes|].
  intros method path Hmethod. unfold httprouter.Lookup, router_of.
  destruct (enabled_routes _); simpl.
  - now rewrite lookup_empty.
  - rewrite lookup_insert_ne, lookup_empty; [reflexivity|].
    intros <-. now rewrite String.eqb_refl in Hmethod.
Qed.

(* ===================================================================== *)
(** * Further properties of the access-log adapter                       *)
(* ===================================================================== *)

(** X6: successive calls of [Write] neither merge, drop nor reorder their
    lines: a logger that records its calls has, after the calls, one
    record for each byte sequence, in the order of the calls, and each
    call has returned the length of its own sequence and no error. *)
Theorem Write_each_in_order (m : MyLogger) (ps : list (list Byte.byte))
  (calls : list (log.Logger * string)) :
  Write_each recording_Print m ps calls
  = (map (fun p => (Z.of_nat (length p), None)) ps,
     calls ++ map (fun p => (logger m, string_of_bytes p)) ps).
Proof.
  revert calls. induction ps as [|p ps IH]; intros calls; simpl.
  - now rewrite app_nil_r.
  - rewrite IH. unfold recording_Print. now rewrite <- app_assoc.
Qed.

(* ===================================================================== *)
(** * Further properties of the startup sequence                         *)
(* ===================================================================== *)

Section Startup_more.
Context {StatusConfig RateLimitConfig : Type}.
Local Abbreviation Config := (@Config StatusConfig RateLimitConfig).
Local Abbreviation Env := (@Env StatusConfig RateLimitConfig).
Local Abbreviation World := (@World StatusConfig RateLimitConfig).
Local Abbreviation Event := (@Event StatusConfig RateLimitConfig).
Local Abbreviation Value := (@Value StatusConfig RateLimitConfig).
Implicit Types (env : Env) (conf : Config) (flags : Flags) (w : World)
  (events : list Event) (init : gmap string Value).

Lemma added_extend {A} (m : Proc A) w (res : Result A) events :
  m w = (res, extend w events) -> added m w = events.
Proof.
  intros Hm. unfold added. rewrite Hm. simpl. apply drop_app_length.
Qed.

Lemma added_PrintServiceInfo conf birdConf w :
  added (PrintServiceInfo conf birdConf) w = service_info conf birdConf.
Proof. eapply added_extend, PrintServiceInfo_trace. Qed.

(** The run of a process that passes the first gate. *)
Lemma run_passing env init flags conf :
  cmdline env = inl flags ->
  LoadConfigs env [configfile flags] = inl conf ->
  tls_gate_fails conf = false ->
  run env init
  = (listener_result env,
     extend (mkWorld init [])
       (load_trace flags ++ configure_trace env flags conf
        ++ serve_trace env conf (selected flags conf) (access_handler env conf))).
Proof.
  intros Hflags Hload Hgate. now rewrite run_cases, Hflags, Hload, Hgate.
Qed.

Lemma existsb_false_filter {A} (f : A -> bool) (l : list A) :
  existsb f l = false -> List.filter f l = [].
Proof.
  induction l as [|x l IH]; simpl; [reflexivity|].
  intros Hnone. apply orb_false_elim in Hnone as [-> Hl]. auto.
Qed.

Lemma configure_trace_existsb (f : Event -> bool) env flags conf :
  (forall args, f (EvPrintln args) = false) ->
  f (EvStore "endpoints.VERSION" (VString VERSION)) = false ->
  f EvInstallRateLimitReset = false ->
  f (EvStore "bird.IPVersion" (VString "6")) = false ->
  (forall v, f (EvStore "bird.ClientConf" v) = false) ->
  (forall v, f (EvStore "bird.StatusConf" v) = false) ->
  (forall v, f (EvStore "bird.RateLimitConf.Conf" v) = false) ->
  (forall v, f (EvStore "bird.ParserConf" v) = false) ->
  (forall v, f (EvStore "endpoints.Conf" v) = false) ->
  (forall prefix, f (EvSetPrefix prefix) = false) ->
  existsb f (configure_trace env flags conf) = false.
Proof.
  intros HP H1 H2 H3 H4 H5 H6 H7 H8 H9.
  unfold configure_trace. rewrite !existsb_app.
  rewrite (Println_existsb f (service_info conf (selected flags conf)) HP)
    by apply service_info_Println.
  destruct (bird6 flags); simpl;
    now rewrite ?H1, ?H2, ?H3, ?H4, ?H5, ?H6, ?H7, ?H8, ?H9.
Qed.

(** X7: [PrintServiceInfo] only prints: it returns, leaves the package
    variables as they are, and adds to the trace seven lines and one line
    for each entry of the whitelist, all of them [log.Println] calls. *)
Theorem PrintServiceInfo_only_prints conf birdConf w :
  fst (PrintServiceInfo conf birdConf w) = Ret tt
  /\ globals (snd (PrintServiceInfo conf birdConf w)) = globals w
  /\ trace (snd (PrintServiceInfo conf birdConf w))
     = trace w ++ added (PrintServiceInfo conf birdConf) w
  /\ length (added (PrintServiceInfo conf birdConf) w)
     = 7 + length (endpoints.ModulesEnabled (Server conf))
  /\ Forall (fun e => exists args, e = EvPrintln args)
            (added (PrintServiceInfo conf birdConf) w).
Proof.
  rewrite added_PrintServiceInfo, PrintServiceInfo_trace.
  cbn [fst snd extend globals trace]. repeat split.
  - apply Println_replay, service_info_Println.
  - unfold service_info. rewrite !length_app, length_map. simpl. lia.
  - apply service_info_Println.
Qed.

(** X8: the fifth line of [PrintServiceInfo] tells who may connect: "ALL"
    when the allow list is empty, and otherwise the entries of the list
    joined by a comma and a space. *)
Theorem PrintServiceInfo_allow_from conf birdConf w :
  (endpoints.AllowFrom (Server conf) = [] ->
   added (PrintServiceInfo conf birdConf) w !! 4
   = Some (EvPrintln [AStr "        AllowFrom: ALL"]))
  /\ (forall first rest,
        endpoints.AllowFrom (Server conf) = first :: rest ->
        added (PrintServiceInfo conf birdConf) w !! 4
        = Some (EvPrintln [AStr "        AllowFrom:";
                           AStr (String.concat ", " (first :: rest))])).
Proof.
  rewrite added_PrintServiceInfo. unfold service_info.
  split; [intros ->|intros first rest ->]; reflexivity.
Qed.

(** X9: after its first six lines [PrintServiceInfo] lists the whitelist
    as it is: one line for each entry, known module or not, repeated or
    not, in the order of the whitelist. *)
Theorem PrintServiceInfo_lists_whitelist conf birdConf w :
  take (length (endpoints.ModulesEnabled (Server conf)))
       (drop 6 (added (PrintServiceInfo conf birdConf) w))
  = map (fun m => EvPrintln [AStr "       -"; AStr m])
        (endpoints.ModulesEnabled (Server conf)).
Proof.
  rewrite added_PrintServiceInfo. unfold service_info. simpl.
  rewrite <- (length_map
                (fun m : string => EvPrintln [AStr "       -"; AStr m] : Event)).
  apply take_app_length.
Qed.

(** X10: when the configuration cannot be loaded, the process logs the
    error with [log.Fatal] and exits with status 1; it has by then
    assigned the worker-pool size and nothing else, and it binds no
    listener. *)
Theorem load_failure_exits env init flags (err : error) :
  cmdline env = inl flags ->
  LoadConfigs env [configfile flags] = inr err ->
  run env init
  = (Exit 1,
     mkWorld (<["bird.WorkerPoolSize" := VInt (workerPoolSize flags)]> init)
       [ EvFlagParse;
         EvStore "bird.WorkerPoolSize" (VInt (workerPoolSize flags));
         EvLoadConfigs [configfile flags];
         EvFatal [AStr "Loading birdwatcher configuration failed:"; AErr err] ]).
Proof.
  intros Hflags Hload. now rewrite run_cases, Hflags, Hload.
Qed.

(** X11: the worker-pool size of the command line reaches
    [bird.WorkerPoolSize] in every run that gets past the flags, however
    the run ends. *)
Theorem worker_pool_forwarded env init flags :
  cmdline env = inl flags ->
  globals (snd (run env init)) !! "bird.WorkerPoolSize"
  = Some (VInt (workerPoolSize flags)).
Proof.
  intros Hflags. rewrite run_cases, Hflags.
  destruct (LoadConfigs env [configfile flags]) as [conf|err];
    [|apply lookup_insert_eq].
  destruct (tls_gate_fails conf); [apply lookup_insert_eq|].
  cbn [snd extend globals]. rewrite !replay_app.
  rewrite (replay_untouched _ (serve_trace _ _ _ _))
    by apply serve_trace_no_store.
  rewrite (replay_untouched _ (configure_trace _ _ _))
    by now apply configure_trace_existsb.
  apply lookup_insert_eq.
Qed.

(** X12: [main] never returns and never panics.  It ends by an exit,
    with status 1 unless it is the exit of [flag.Parse], or it serves
    forever, and then it has bound a listener that reported no error. *)
Theorem run_ends env init :
  (exists code,
      fst (run env init) = Exit code
      /\ (code = 1%Z \/ cmdline env = inr code))
  \/ (fst (run env init) = Serving
      /\ serve_error env = None
      /\ existsb is_bind (trace (snd (run env init))) = true).
Proof.
  rewrite run_cases.
  destruct (cmdline env) as [flags|code]; [|left; exists code; auto].
  destruct (LoadConfigs env [configfile flags]) as [conf|err];
    [|left; exists 1%Z; auto].
  destruct (tls_gate_fails conf) eqn:Hgate; [left; exists 1%Z; auto|].
  unfold listener_result.
  destruct (serve_error env) as [err|]; [left; exists 1%Z; auto|].
  right. repeat split.
  destruct (serve_trace_bind env conf (selected flags conf)
              (access_handler env conf) Hgate) as (bind & Hbind & _ & Hserve).
  cbn [snd extend trace app]. rewrite !existsb_app, Hserve. simpl.
  rewrite Hbind. now rewrite !orb_true_r.
Qed.

(** X13: a run that passes the first gate binds one listener, for the
    router of the whitelist behind an access logger on standard output
    whose prefix is the time, a space and "QUERY: ": a plain listener when
    TLS is off, whatever the certificate and key paths are, and a TLS
    listener with the configured certificate and key when it is on. *)
Theorem listener_choice env init flags conf :
  cmdline env = inl flags ->
  LoadConfigs env [configfile flags] = inl conf ->
  tls_gate_fails conf = false ->
  exists r,
    makeRouter (Server conf) = Some r
    /\ List.filter is_bind (trace (snd (run env init)))
       = [ if endpoints.EnableTLS (Server conf) then
             EvListenAndServeTLS
               (bird.Listen (if bird6 flags then Bird6 conf else Bird conf))
               (endpoints.Crt (Server conf)) (endpoints.Key (Server conf))
               (LoggingHandler
                  (mkMyLogger (log.New log.Stdout (now env +:+ " QUERY: ") 0)) r)
           else
             EvListenAndServe
               (bird.Listen (if bird6 flags then Bird6 conf else Bird conf))
               (LoggingHandler
                  (mkMyLogger (log.New log.Stdout (now env +:+ " QUERY: ") 0)) r) ].
Proof.
  intros Hflags Hload Hgate.
  exists (router_of (enabled_routes (endpoints.ModulesEnabled (Server conf)))).
  split; [apply makeRouter_enabled_routes|].
  rewrite (run_passing env init flags conf Hflags Hload Hgate).
  cbn [snd extend trace app]. rewrite !List.filter_app.
  rewrite (existsb_false_filter is_bind (configure_trace env flags conf))
    by apply configure_trace_no_bind.
  unfold serve_trace, tls_gate_fails in *.
  destruct (endpoints.EnableTLS (Server conf)); simpl in Hgate |- *.
  - rewrite Hgate. simpl.
    now rewrite (existsb_false_filter is_bind (listener_end env))
      by apply listener_end_no_bind.
  - now rewrite (existsb_false_filter is_bind (listener_end env))
      by apply listener_end_no_bind.
Qed.

(** X14: a run that passes the first gate hands every section of the
    configuration to its collaborator, as it was loaded: the status, the
    rate-limit and the parser settings to the bird package, the server
    settings to the endpoints package, and the version of the program as
    [endpoints.VERSION]. *)
Theorem settings_forwarded env init flags conf :
  cmdline env = inl flags ->
  LoadConfigs env [configfile flags] = inl conf ->
  tls_gate_fails conf = false ->
  globals (snd (run env init)) !! "bird.StatusConf"
  = Some (VStatusConfig (Status conf))
  /\ globals (snd (run env init)) !! "bird.RateLimitConf.Conf"
     = Some (VRateLimitConfig (Ratelimit conf))
  /\ globals (snd (run env init)) !! "bird.ParserConf"
     = Some (VParserConfig (Parser conf))
  /\ globals (snd (run env init)) !! "endpoints.Conf"
     = Some (VServerConfig (Server conf))
  /\ globals (snd (run env init)) !! "endpoints.VERSION"
     = Some (VString "1.11.2").
Proof.
  intros Hflags Hload Hgate.
  rewrite (run_passing env init flags conf Hflags Hload Hgate).
  cbn [snd extend globals]. rewrite !replay_app.
  assert (Hserve : forall g,
             replay (serve_trace env conf (selected flags conf)
                       (access_handler env conf)) g = g).
  { intros g. unfold serve_trace, listener_end.
    destruct (endpoints.EnableTLS (Server conf)),
      (tls_material_missing (Server conf)), (serve_error env); reflexivity. }
  rewrite Hserve. unfold configure_trace. rewrite !replay_app.
  rewrite (Println_replay (service_info conf (selected flags conf)))
    by apply service_info_Println.
  destruct (bird6 flags); simpl; repeat split;
    repeat first [ rewrite lookup_insert_eq
                 | rewrite lookup_insert_ne by discriminate ];
    reflexivity.
Qed.

(** X15: the fatal message of the second look at the TLS material is
    never logged: in no run of [main], whatever the command line, the
    configuration and the listener, does the check before the bind fail,
    for the check after the load has ended every run in which it would. *)
Theorem second_check_never_fires env init :
  existsb (is_fatalln_with msg_tls_before_bind) (trace (snd (run env init)))
  = false.
Proof.
  rewrite run_cases.
  destruct (cmdline env) as [flags|code]; [|reflexivity].
  destruct (LoadConfigs env [configfile flags]) as [conf|err]; [|reflexivity].
  destruct (tls_gate_fails conf) eqn:Hgate; [reflexivity|].
  cbn [snd extend trace app]. rewrite !existsb_app.
  rewrite configure_trace_existsb by reflexivity.
  unfold serve_trace, listener_end, tls_gate_fails in *.
  destruct (endpoints.EnableTLS (Server conf)); simpl in Hgate |- *.
  - rewrite Hgate. destruct (serve_error env); reflexivity.
  - destruct (serve_error env); reflexivity.
Qed.

(** X16: the startup information tells the address that is bound: a run
    that passes the first gate binds one listener, and the "Listen:" line
    of [PrintServiceInfo] in its trace names the address of that bind. *)
Theorem logged_listen_is_bound env init flags conf :
  cmdline env = inl flags ->
  LoadConfigs env [configfile flags] = inl conf ->
  tls_gate_fails conf = false ->
  exists addr,
    omap bind_addr (trace (snd (run env init))) = [addr]
    /\ In (EvPrintln [AStr "           Listen:"; AStr addr])
          (trace (snd (run env init))).
Proof.
  intros Hflags Hload Hgate.
  exists (bird.Listen (selected flags conf)).
  rewrite (run_passing env init flags conf Hflags Hload Hgate).
  cbn [snd extend trace app]. split.
  - destruct (serve_trace_bind env conf (selected flags conf)
                (access_handler env conf) Hgate) as (bind & _ & Haddr & Hserve).
    rewrite !omap_app, (proj2 (configure_trace_no_bind env flags conf)), Hserve.
    simpl. rewrite Haddr. f_equal. apply listener_end_no_bind.
  - apply in_app_iff. right. apply in_app_iff. left.
    unfold configure_trace. apply in_app_iff. right.
    apply in_app_iff. right. apply in_app_iff. left.
    unfold service_info. apply in_app_iff. left.
    simpl. auto.
Qed.

End Startup_more.

(** A concrete case of [load_failure_exits]: no configuration file. *)
Lemma load_failure_exits_witness :
  fst (run (mkEnv (inl (demo_flags false))
                  (fun _ => inr "open: no such file"%string : @Config unit unit + error)
                  "2026/01/02 03:04:05" None) ∅)
  = Exit 1.
Proof.
  exact (f_equal fst
           (load_failure_exits
              (mkEnv (inl (demo_flags false))
                     (fun _ => inr "open: no such file"%string)
                     "2026/01/02 03:04:05" None)
              ∅ (demo_flags false) "open: no such file" eq_refl eq_refl)).
Defined.

(** A concrete case of [worker_pool_forwarded]: the default of eight,
    in a run that the TLS gate ends. *)
Lemma worker_pool_forwarded_witness :
  globals (snd (run (demo_env false (demo_conf true "" "") None) ∅))
    !! "bird.WorkerPoolSize"
  = Some (VInt 8).
Proof.
  exact (worker_pool_forwarded (demo_env false (demo_conf true "" "") None) ∅
           (demo_flags false) eq_refl).
Defined.

(** A concrete case of [listener_choice]: TLS on, with certificate and
    key. *)
Lemma listener_choice_witness :
  exists r,
    makeRouter (Server (demo_conf true "srv.crt" "srv.key")) = Some r
    /\ List.filter is_bind
         (trace (snd (run (demo_env true (demo_conf true "srv.crt" "srv.key") None)
                          ∅)))
       = [ EvListenAndServeTLS "0.0.0.0:29186" "srv.crt" "srv.key"
             (LoggingHandler
                (mkMyLogger
                   (log.New log.Stdout "2026/01/02 03:04:05 QUERY: " 0)) r) ].
Proof.
  exact (listener_choice (demo_env true (demo_conf true "srv.crt" "srv.key") None)
           ∅ (demo_flags true) (demo_conf true "srv.crt" "srv.key")
           eq_refl eq_refl eq_refl).
Defined.

(** A concrete case of [settings_forwarded]: the server settings of the
    example. *)
Lemma settings_forwarded_witness :
  globals (snd (run (demo_env false (demo_conf false "" "") None) ∅))
    !! "endpoints.Conf"
  = Some (VServerConfig
            (endpoints.mkServerConfig [] ["status"; "routes_peer"] false "" "")).
Proof.
  exact (proj1 (proj2 (proj2 (proj2
           (settings_forwarded (demo_env false (demo_conf false "" "") None) ∅
              (demo_flags false) (demo_conf false "" "")
              eq_refl eq_refl eq_refl))))).
Defined.

(** A concrete case of [logged_listen_is_bound]: the first backend. *)
Lemma logged_listen_is_bound_witness :
  exists addr,
    omap bind_addr
      (trace (snd (run (demo_env false (demo_conf false "" "") None) ∅)))
    = [addr]
    /\ In (EvPrintln [AStr "           Listen:"; AStr addr])
          (trace (snd (run (demo_env false (demo_conf false "" "") None) ∅))).
Proof.
  exact (logged_listen_is_bound (demo_env false (demo_conf false "" "") None) ∅
           (demo_flags false) (demo_conf false "" "") eq_refl eq_refl eq_refl).
Defined.
